(** * Weather dashboard backend: the cache-aside weather controller

    A shallow embedding of [routes/weatherRoutes.ts],
    [controllers/weatherController.ts] and [services/weatherService.ts]
    (all three live in [weather_backend_server.ts]) together with the
    payload types of [types/weather.ts].

    Conventions of the embedding.
    - Asynchronous methods are computations in a reader/state/exception
      monad [M]: the environment holds what the request cannot change
      (the provider's answers, the clock, the random source, the health of
      the cache backend), the state holds what it can (the cache store,
      the number of random draws, the log of observable events).
    - JavaScript numbers are exact: integers are [Z], measurements are
      rationals [Q], coordinates are finite decimals.  The rounding and
      overflow of IEEE doubles are outside the model.
    - An instant is its number of milliseconds since the epoch; the ISO
      string of a [Date] is represented by that instant, and calendar days
      are UTC days of 86 400 000 ms.  One request is served at one instant.
    - [undefined] is [None]. *)

From Stdlib Require Import ZArith QArith Qround String Ascii List Lia Lqa.
From stdpp Require Import base option gmap strings pretty.

Local Open Scope string_scope.
Local Open Scope list_scope.
Local Open Scope Z_scope.

(** ** JavaScript primitives used by the server *)

Module Js.

Definition code (c : ascii) : Z := Z.of_N (N_of_ascii c).

(** WhiteSpace and LineTerminator code units below 128. *)
Definition isWhite (c : ascii) : bool :=
  let n := code c in ((9 <=? n) && (n <=? 13)) || (n =? 32).

Definition digit (c : ascii) : option Z :=
  let n := code c in
  if (48 <=? n) && (n <=? 57) then Some (n - 48) else None.

Definition isDigit (c : ascii) : bool :=
match digit c with
| Some _ => true
| None => false
end.

Definition hexDigit (c : ascii) : option Z :=
  let n := code c in
  if (48 <=? n) && (n <=? 57) then Some (n - 48)
  else if (97 <=? n) && (n <=? 102) then Some (n - 87)
  else if (65 <=? n) && (n <=? 70) then Some (n - 55)
  else None.

Fixpoint trimStart (s : string) : string :=
  match s with
  | String c r => if isWhite c then trimStart r else s
  | EmptyString => s
  end.

(** Reads the longest prefix of digits in the given radix: the value
    read so far, how many digits were read, and the rest. *)
Fixpoint readDigits (dig : ascii → option Z) (radix : Z)
         (acc : Z) (n : nat) (s : string) : Z * nat * string :=
  match s with
  | String c r =>
      match dig c with
      | Some d => readDigits dig radix (acc * radix + d) (S n) r
      | None => (acc, n, s)
      end
  | EmptyString => (acc, n, s)
  end.

(** An optional sign: [-1] or [1], and the rest. *)
Definition readSign (s : string) : Z * string :=
  match s with
  | String "-" r => (-1, r)
  | String "+" r => (1, r)
  | _ => (1, s)
  end.

Definition hasHexPrefix (s : string) : option string :=
  match s with
  | String "0" (String "x" r) => Some r
  | String "0" (String "X" r) => Some r
  | _ => None
  end.

(** [parseInt(s)] with no radix argument; [None] is NaN.  An absent
    argument is the string "undefined", which has no digits. *)
Definition parseIntStr (s : string) : option Z :=
  let '(sign, body) := readSign (trimStart s) in
  let '(v, n, _) :=
    match hasHexPrefix body with
    | Some r => readDigits hexDigit 16 0 0%nat r
    | None => readDigits digit 10 0 0%nat body
    end in
  match n with
  | O => None
  | S _ => Some (sign * v)
  end.

Definition parseInt (arg : option string) : option Z :=
  match arg with
  | Some s => parseIntStr s
  | None => None
  end.

(** [x || d] on a number: NaN and 0 are falsy. *)
Definition orDefault (x : option Z) (d : Z) : Z :=
  match x with
  | Some 0 => d
  | Some v => v
  | None => d
  end.

(** A finite decimal [coeff / 10^scale], kept with no trailing zero in
    the fraction. *)
Record Decimal := mkDecimal { coeff : Z; scale : nat }.

Inductive Number := NaN | Infinity (negative : bool) | Fin (d : Decimal).

Fixpoint normalize (c : Z) (sc : nat) : Decimal :=
  match sc with
  | O => mkDecimal c O
  | S sc' => if c mod 10 =? 0 then normalize (c / 10) sc' else mkDecimal c sc
  end.

(** [c * 10^e] as a decimal. *)
Definition scaled (c : Z) (e : Z) : Decimal :=
  if 0 <=? e then mkDecimal (c * 10 ^ e) O else normalize c (Z.to_nat (- e)).

Definition decimalQ (d : Decimal) : Q :=
  (coeff d # 1) / (10 ^ Z.of_nat (scale d) # 1).

(** The exponent part is read only when it is complete: [e], an optional
    sign and at least one digit. *)
Definition readExponent (s : string) : Z :=
  match s with
  | String c r =>
      if (code c =? 101) || (code c =? 69) then
        let '(sg, r1) := readSign r in
        let '(v, n, _) := readDigits digit 10 0 0%nat r1 in
        match n with O => 0 | S _ => sg * v end
      else 0
  | EmptyString => 0
  end.

Definition hasInfinity (s : string) : bool :=
  String.prefix "Infinity" s.

(** [parseFloat(s)]: the longest prefix that is a decimal literal. *)
Definition parseFloat (s : string) : Number :=
  let '(sign, body) := readSign (trimStart s) in
  if hasInfinity body then Infinity (sign =? -1) else
  let '(ip, ni, r1) := readDigits digit 10 0 0%nat body in
  let '(m, nf, r2) :=
    match r1 with
    | String "." r => readDigits digit 10 ip 0%nat r
    | _ => (ip, 0%nat, r1)
    end in
  match (ni + nf)%nat with
  | O => NaN
  | S _ => Fin (scaled (sign * m) (readExponent r2 - Z.of_nat nf))
  end.

Fixpoint zeros (n : nat) : string :=
  match n with
  | O => ""
  | S n' => String "0" (zeros n')
  end.

Definition decimalToString (d : Decimal) : string :=
  let a := Z.abs (coeff d) in
  let p := 10 ^ Z.of_nat (scale d) in
  let sign := if coeff d <? 0 then "-" else "" in
  let ip := pretty (a / p) in
  match scale d with
  | O => sign +:+ ip
  | S _ =>
      let fp := pretty (a mod p) in
      sign +:+ ip +:+ "." +:+ zeros (scale d - String.length fp) +:+ fp
  end.

(** The string a template literal interpolates for a number. *)
Definition toString (x : Number) : string :=
  match x with
  | NaN => "NaN"
  | Infinity false => "Infinity"
  | Infinity true => "-Infinity"
  | Fin d => decimalToString d
  end.

(** [x * c] and [x / c] where [x] may be undefined: the result is NaN
    then, which is [None] here. *)
Definition times (x : option Q) (c : Q) : option Q := (λ q, (q * c)%Q) <$> x.
Definition over (x : option Q) (c : Q) : option Q := (λ q, (q / c)%Q) <$> x.

(** [s.toLowerCase()] on code units below 128. *)
Definition lowerChar (c : ascii) : ascii :=
  let n := code c in
  if (65 <=? n) && (n <=? 90) then ascii_of_N (Z.to_N (n + 32)) else c.

Fixpoint toLowerCase (s : string) : string :=
  match s with
  | String c r => String (lowerChar c) (toLowerCase r)
  | EmptyString => EmptyString
  end.

End Js.

(** ** Payload types (types/weather.ts) *)

Module WeatherData.
Record t := mk {
  location : option string;
  country : option string;
  temperature : option Q;
  feelsLike : option Q;
  humidity : option Q;
  pressure : option Q;
  windSpeed : option Q;          (* [None] is NaN *)
  windDirection : option Q;
  visibility : option Q;         (* [None] is NaN *)
  uvIndex : Z;
  condition : string;
  description : option string;
  icon : option string;
  timestamp : Z;
  coordinates : option Q * option Q
}.
End WeatherData.

Module ForecastData.
Record t := mk {
  date : option string;
  temperature : option Q;
  feelsLike : option Q;
  humidity : option Q;
  pressure : option Q;
  windSpeed : option Q;
  condition : string;
  description : option string;
  icon : option string;
  precipitationProbability : option Q
}.
End ForecastData.

Module HistoricalData.
Record t := mk {
  date : Z;
  temperature : Q;
  humidity : Q;
  windSpeed : Q;
  condition : option string;
  description : string
}.
End HistoricalData.

Inductive Severity := minor | moderate | severe | extreme.

Module WeatherAlert.
Record t := mk {
  id : string;
  title : string;
  description : string;
  severity : Severity;
  startTime : Z;
  endTime : Z;
  area : string
}.
End WeatherAlert.

(** What a handler passes to [res.json] and what the cache holds.  All
    four are objects or arrays, hence truthy. *)
Inductive Payload :=
| PWeather (w : WeatherData.t)
| PForecast (l : list ForecastData.t)
| PHistory (l : list HistoricalData.t)
| PAlerts (l : list WeatherAlert.t).

(** ** The provider's replies, as the transformers read them

    [response.data] is untyped in the source.  It is read here as an
    object tree in which any field may be missing; a field that is there
    has the type the provider documents. *)

Module Owm.
Record Sys := { sys_country : option string }.
Record Main := {
  temp : option Q; feels_like : option Q;
  main_humidity : option Q; main_pressure : option Q }.
Record Wind := { speed : option Q; deg : option Q }.
Record Condition := {
  main : option string; cond_description : option string;
  cond_icon : option string }.
Record Coord := { lat : option Q; lon : option Q }.
Record Current := {
  name : option string;
  sys : option Sys;
  c_main : option Main;
  c_wind : option Wind;
  c_visibility : option Q;
  c_weather : option (list Condition);
  coord : option Coord }.
Record Item := {
  dt_txt : option string;
  i_main : option Main;
  i_wind : option Wind;
  i_weather : option (list Condition);
  pop : option Q }.
Record Forecast := { list : option (Datatypes.list Item) }.
End Owm.

(** ** Errors, requests to the provider, observable events *)

Inductive JsError :=
| ApiError (statusCode : Z) (message : string)
| AxiosError (status : option Z)   (* [error.response?.status] *)
| TypeError
| CacheError
| ValidationError (messages : list string).

Inductive Place :=
| ByName (q : string)
| ByCoords (lat lon : Js.Number).

Record HttpRequest := {
  url : string; place : Place; appid : string; units : string; timeout : Z }.

Inductive AxiosResult (D : Type) :=
| Resolved (data : D)
| Rejected (status : option Z).
Arguments Resolved {D} data.
Arguments Rejected {D} status.

Inductive ServiceCall :=
| CallCurrent (location : string)
| CallCurrentByCoords (lat lon : Js.Number)
| CallForecast (location : string)
| CallForecastByCoords (lat lon : Js.Number)
| CallHistorical (location : string) (days : Z)
| CallAlerts (location : string).

(** The log of what a request did: calls on the cache service, calls on
    the weather service (the controller's upstream collaborator), HTTP
    requests to the provider, and [logger.error] lines. *)
Inductive Event :=
| CacheGet (key : string)
| CacheSet (key : string) (value : Payload) (ttl : Z)
| Service (call : ServiceCall)
| HttpGet (request : HttpRequest)
| LogError (message : string) (error : JsError).

(** ** The monad of a request *)

Record CacheEntry := { payload : Payload; insertedAt : Z; ttl : Z }.

Record Env := {
  now : Z;
  random : nat → N;
  apiKey : string;
  weatherApi : HttpRequest → AxiosResult Owm.Current;
  forecastApi : HttpRequest → AxiosResult Owm.Forecast;
  cacheReadFault : bool;
  cacheWriteFault : bool }.

Record State := {
  store : gmap string CacheEntry;
  drawn : nat;
  trace : Datatypes.list Event }.

Inductive Result (A : Type) :=
| Ok (a : A)
| Throw (e : JsError).
Arguments Ok {A} a.
Arguments Throw {A} e.

Definition M (A : Type) : Type := Env → State → Result A * State.

#[global] Instance M_ret : MRet M := λ A a _ s, (Ok a, s).

#[global] Instance M_bind : MBind M := λ A B f m env s,
  match m env s with
  | (Ok a, s') => f a env s'
  | (Throw e, s') => (Throw e, s')
  end.

Definition throw {A} (e : JsError) : M A := λ _ s, (Throw e, s).

Definition tryCatch {A} (body : M A) (handler : JsError → M A) : M A :=
  λ env s,
  match body env s with
  | (Ok a, s') => (Ok a, s')
  | (Throw e, s') => handler e env s'
  end.

Definition ask {A} (f : Env → A) : M A := λ env s, (Ok (f env), s).

Definition record (e : Event) (s : State) : State :=
  {| store := store s; drawn := drawn s; trace := trace s ++ [e] |}.

Definition emit (e : Event) : M unit := λ _ s, (Ok tt, record e s).

(** [x.f] where [x] may be undefined. *)
Definition deref {A} (x : option A) : M A :=
  match x with
  | Some a => mret a
  | None => throw TypeError
  end.

(** [a[i]] for an integer [i]. *)
Definition index {A} (a : Datatypes.list A) (i : Z) : option A :=
  if i <? 0 then None else nth_error a (Z.to_nat i).

(** [Math.random()]: the next draw, a multiple of 2^-53 in [0, 1). *)
Definition unitInterval (k : N) : Q :=
  Z.of_N (k mod 2 ^ 53) # 9007199254740992.

Definition Math_random : M Q := λ env s,
  (Ok (unitInterval (random env (drawn s))),
   {| store := store s; drawn := S (drawn s); trace := trace s |}).

Definition Math_floor (q : Q) : Z := Qfloor q.

Definition logger_error (message : string) (error : JsError) : M unit :=
  emit (LogError message error).

(** ** services/cacheService.ts *)

Module CacheService.

(** Modelled from the spec: the cache service module is not among the
    sources.  An entry is valid if and only if the current time is before
    its insertion time plus its TTL (in seconds); an expired entry is
    logically absent. *)
Definition valid (t : Z) (e : CacheEntry) : bool :=
  t <? insertedAt e + 1000 * ttl e.

Definition lookup (m : gmap string CacheEntry) (t : Z) (key : string)
  : option Payload :=
  match m !! key with
  | Some e => if valid t e then Some (payload e) else None
  | None => None
  end.

(** Modelled from the spec: [cacheService.get(key)] resolves to the
    payload of a valid entry or to null.  When the backend is faulty the
    promise is rejected. *)
Definition get (key : string) : M (option Payload) := λ env s,
  let s' := record (CacheGet key) s in
  if cacheReadFault env then (Throw CacheError, s')
  else (Ok (lookup (store s) (now env) key), s').

(** Modelled from the spec: [cacheService.set(key, value, ttl)] overwrites
    the entry of the key, stamped with the current time.  When the backend
    is faulty the promise is rejected and nothing is stored. *)
Definition set (key : string) (value : Payload) (seconds : Z) : M unit :=
  λ env s,
  let s' := record (CacheSet key value seconds) s in
  if cacheWriteFault env then (Throw CacheError, s')
  else (Ok tt,
        {| store := <[key := {| payload := value; insertedAt := now env;
                                ttl := seconds |}]> (store s');
           drawn := drawn s'; trace := trace s' |}).

End CacheService.

(** ** services/weatherService.ts *)

(** Each method first logs that it was called: what a spy on the
    controller's collaborator would count. *)
Module WeatherService.

Definition baseUrl : string := "https://api.openweathermap.org/data/2.5".

(** [axios.get(url, { params, timeout })]. *)
Definition axios_get {D} (api : Env → HttpRequest → AxiosResult D)
           (r : HttpRequest) : M D := λ env s,
  let s' := record (HttpGet r) s in
  match api env r with
  | Resolved data => (Ok data, s')
  | Rejected status => (Throw (AxiosError status), s')
  end.

(** [axios.isAxiosError(error) && error.response?.status === 404]. *)
Definition isNotFound (error : JsError) : bool :=
  match error with
  | AxiosError status => bool_decide (status = Some 404)
  | _ => false
  end.

Definition transformWeatherData (data : Owm.Current) : M WeatherData.t :=
  sys ← deref (Owm.sys data);
  main ← deref (Owm.c_main data);
  wind ← deref (Owm.c_wind data);
  r ← Math_random;
  weather ← deref (Owm.c_weather data);
  weather0 ← deref (index weather 0);
  weather0main ← deref (Owm.main weather0);
  date ← ask now;
  coord ← deref (Owm.coord data);
  mret {|
    WeatherData.location := Owm.name data;
    WeatherData.country := Owm.sys_country sys;
    WeatherData.temperature := Owm.temp main;
    WeatherData.feelsLike := Owm.feels_like main;
    WeatherData.humidity := Owm.main_humidity main;
    WeatherData.pressure := Owm.main_pressure main;
    WeatherData.windSpeed := Js.times (Owm.speed wind) (18 # 5);
    WeatherData.windDirection := Owm.deg wind;
    WeatherData.visibility := Js.over (Owm.c_visibility data) (1000 # 1);
    WeatherData.uvIndex := Math_floor (r * (11 # 1));
    WeatherData.condition := Js.toLowerCase weather0main;
    WeatherData.description := Owm.cond_description weather0;
    WeatherData.icon := Owm.cond_icon weather0;
    WeatherData.timestamp := date;
    WeatherData.coordinates := (Owm.lat coord, Owm.lon coord)
  |}.

Definition transformItem (item : Owm.Item) : M ForecastData.t :=
  main ← deref (Owm.i_main item);
  wind ← deref (Owm.i_wind item);
  weather ← deref (Owm.i_weather item);
  weather0 ← deref (index weather 0);
  weather0main ← deref (Owm.main weather0);
  mret {|
    ForecastData.date := Owm.dt_txt item;
    ForecastData.temperature := Owm.temp main;
    ForecastData.feelsLike := Owm.feels_like main;
    ForecastData.humidity := Owm.main_humidity main;
    ForecastData.pressure := Owm.main_pressure main;
    ForecastData.windSpeed := Js.times (Owm.speed wind) (18 # 5);
    ForecastData.condition := Js.toLowerCase weather0main;
    ForecastData.description := Owm.cond_description weather0;
    ForecastData.icon := Owm.cond_icon weather0;
    ForecastData.precipitationProbability := Js.times (Owm.pop item) (100 # 1)
  |}.

(** [items.map(f)], left to right. *)
Fixpoint mapM {A B} (f : A → M B) (items : list A) : M (list B) :=
  match items with
  | [] => mret []
  | x :: rest => y ← f x; ys ← mapM f rest; mret (y :: ys)
  end.

Definition transformForecastData (data : Owm.Forecast)
  : M (list ForecastData.t) :=
  items ← deref (Owm.list data);
  mapM transformItem items.

Definition getCurrentWeather (location : string) : M WeatherData.t :=
  emit (Service (CallCurrent location));;
  tryCatch
    (key ← ask apiKey;
     data ← axios_get weatherApi
       {| url := baseUrl +:+ "/weather"; place := ByName location;
          appid := key; units := "metric"; timeout := 10000 |};
     transformWeatherData data)
    (λ error,
      logger_error "Failed to fetch current weather:" error;;
      if isNotFound error then throw (ApiError 404 "Location not found")
      else throw (ApiError 500 "Weather service unavailable")).

Definition getCurrentWeatherByCoords (lat lon : Js.Number)
  : M WeatherData.t :=
  emit (Service (CallCurrentByCoords lat lon));;
  tryCatch
    (key ← ask apiKey;
     data ← axios_get weatherApi
       {| url := baseUrl +:+ "/weather"; place := ByCoords lat lon;
          appid := key; units := "metric"; timeout := 10000 |};
     transformWeatherData data)
    (λ error,
      logger_error "Failed to fetch weather by coordinates:" error;;
      throw (ApiError 500 "Weather service unavailable")).

Definition getForecast (location : string) : M (list ForecastData.t) :=
  emit (Service (CallForecast location));;
  tryCatch
    (key ← ask apiKey;
     data ← axios_get forecastApi
       {| url := baseUrl +:+ "/forecast"; place := ByName location;
          appid := key; units := "metric"; timeout := 10000 |};
     transformForecastData data)
    (λ error,
      logger_error "Failed to fetch forecast:" error;;
      if isNotFound error then throw (ApiError 404 "Location not found")
      else throw (ApiError 500 "Weather service unavailable")).

Definition getForecastByCoords (lat lon : Js.Number)
  : M (list ForecastData.t) :=
  emit (Service (CallForecastByCoords lat lon));;
  tryCatch
    (key ← ask apiKey;
     data ← axios_get forecastApi
       {| url := baseUrl +:+ "/forecast"; place := ByCoords lat lon;
          appid := key; units := "metric"; timeout := 10000 |};
     transformForecastData data)
    (λ error,
      logger_error "Failed to fetch forecast by coordinates:" error;;
      throw (ApiError 500 "Weather service unavailable")).

Definition day : Z := 24 * 60 * 60 * 1000.

Definition conditions : list string := ["clear"; "clouds"; "rain"].

(** One turn of the loop: the entry of the day [i] days before
    [currentDate]; the four draws are made in the order of the fields. *)
Definition historicalEntry (currentDate : Z) (i : Z) : M HistoricalData.t :=
  t ← Math_random;
  h ← Math_random;
  w ← Math_random;
  c ← Math_random;
  mret {|
    HistoricalData.date := currentDate - i * day;
    HistoricalData.temperature := ((20 # 1) + t * (15 # 1))%Q;
    HistoricalData.humidity := ((40 # 1) + h * (40 # 1))%Q;
    HistoricalData.windSpeed := (w * (20 # 1))%Q;
    HistoricalData.condition := index conditions (Math_floor (c * (3 # 1)));
    HistoricalData.description := "Historical weather data"
  |}.

(** [for (let i = days; i > 0; i--)], with [i] the number of turns left. *)
Fixpoint historicalLoop (currentDate : Z) (i : nat)
         (historicalData : list HistoricalData.t)
  : M (list HistoricalData.t) :=
  match i with
  | O => mret historicalData
  | S i' =>
      entry ← historicalEntry currentDate (Z.of_nat i);
      historicalLoop currentDate i' (historicalData ++ [entry])
  end.

Definition getHistoricalWeather (location : string) (days : Z)
  : M (list HistoricalData.t) :=
  emit (Service (CallHistorical location days));;
  tryCatch
    (currentDate ← ask now;
     historicalLoop currentDate (Z.to_nat days) [])
    (λ error,
      logger_error "Failed to fetch historical weather:" error;;
      throw (ApiError 500 "Historical weather service unavailable")).

Definition heatWave (location : string) (date dateNow : Z)
  : WeatherAlert.t := {|
  WeatherAlert.id := "alert_001";
  WeatherAlert.title := "Heat Wave Warning";
  WeatherAlert.description :=
    "Extremely high temperatures expected. Stay hydrated and avoid prolonged sun exposure.";
  WeatherAlert.severity := moderate;
  WeatherAlert.startTime := date;
  WeatherAlert.endTime := dateNow + 24 * 60 * 60 * 1000;
  WeatherAlert.area := location
|}.

Definition getWeatherAlerts (location : string) : M (list WeatherAlert.t) :=
  emit (Service (CallAlerts location));;
  tryCatch
    (randomAlert ← Math_random;
     if Qlt_le_dec (8 # 10) randomAlert then
       date ← ask now;
       dateNow ← ask now;
       mret [heatWave location date dateNow]
     else mret [])
    (λ error,
      logger_error "Failed to fetch weather alerts:" error;;
      throw (ApiError 500 "Weather alerts service unavailable")).

End WeatherService.

(** ** controllers/weatherController.ts *)

Module WeatherController.

(** [res.json(body)] ends the request with that body. *)
Definition res_json (body : Payload) : M Payload := mret body.

Definition getCurrentWeather (location : string) : M Payload :=
  tryCatch
    (let cacheKey := "weather:current:" +:+ location in
     cached ← CacheService.get cacheKey;
     match cached with
     | Some hit => res_json hit
     | None =>
         weather ← WeatherService.getCurrentWeather location;
         CacheService.set cacheKey (PWeather weather) 600;;
         res_json (PWeather weather)
     end)
    (λ error,
      logger_error "getCurrentWeather error:" error;;
      throw (ApiError 500 "Failed to fetch weather data")).

Definition getCurrentWeatherByCoords (lat lon : string) : M Payload :=
  tryCatch
    (let latitude := Js.parseFloat lat in
     let longitude := Js.parseFloat lon in
     let cacheKey :=
       "weather:coords:" +:+ Js.toString latitude +:+ ":"
         +:+ Js.toString longitude in
     cached ← CacheService.get cacheKey;
     match cached with
     | Some hit => res_json hit
     | None =>
         weather ← WeatherService.getCurrentWeatherByCoords latitude longitude;
         CacheService.set cacheKey (PWeather weather) 600;;
         res_json (PWeather weather)
     end)
    (λ error,
      logger_error "getCurrentWeatherByCoords error:" error;;
      throw (ApiError 500 "Failed to fetch weather data")).

Definition getForecast (location : string) : M Payload :=
  tryCatch
    (let cacheKey := "forecast:" +:+ location in
     cached ← CacheService.get cacheKey;
     match cached with
     | Some hit => res_json hit
     | None =>
         forecast ← WeatherService.getForecast location;
         CacheService.set cacheKey (PForecast forecast) 1800;;
         res_json (PForecast forecast)
     end)
    (λ error,
      logger_error "getForecast error:" error;;
      throw (ApiError 500 "Failed to fetch forecast data")).

Definition getForecastByCoords (lat lon : string) : M Payload :=
  tryCatch
    (let latitude := Js.parseFloat lat in
     let longitude := Js.parseFloat lon in
     let cacheKey :=
       "forecast:coords:" +:+ Js.toString latitude +:+ ":"
         +:+ Js.toString longitude in
     cached ← CacheService.get cacheKey;
     match cached with
     | Some hit => res_json hit
     | None =>
         forecast ← WeatherService.getForecastByCoords latitude longitude;
         CacheService.set cacheKey (PForecast forecast) 1800;;
         res_json (PForecast forecast)
     end)
    (λ error,
      logger_error "getForecastByCoords error:" error;;
      throw (ApiError 500 "Failed to fetch forecast data")).

Definition getHistoricalWeather (location : string) (queryDays : option string)
  : M Payload :=
  tryCatch
    (let days := Js.orDefault (Js.parseInt queryDays) 7 in
     let cacheKey := "history:" +:+ location +:+ ":" +:+ pretty days in
     cached ← CacheService.get cacheKey;
     match cached with
     | Some hit => res_json hit
     | None =>
         history ← WeatherService.getHistoricalWeather location days;
         CacheService.set cacheKey (PHistory history) 3600;;
         res_json (PHistory history)
     end)
    (λ error,
      logger_error "getHistoricalWeather error:" error;;
      throw (ApiError 500 "Failed to fetch historical weather data")).

Definition getWeatherAlerts (location : string) : M Payload :=
  tryCatch
    (alerts ← WeatherService.getWeatherAlerts location;
     res_json (PAlerts alerts))
    (λ error,
      logger_error "getWeatherAlerts error:" error;;
      throw (ApiError 500 "Failed to fetch weather alerts")).

End WeatherController.

(** ** routes/weatherRoutes.ts *)

Module WeatherRoutes.

Fixpoint allDigits (s : string) : bool :=
  match s with
  | String c r => if Js.isDigit c then allDigits r else false
  | EmptyString => true
  end.

Fixpoint dropDigits (s : string) : string :=
  match s with
  | String c r => if Js.isDigit c then dropDigits r else s
  | EmptyString => s
  end.

(** The validator behind [isFloat()] with no options: the whole string is
    an optional sign, digits, an optional point with digits and an
    optional exponent, and it is none of the empty string, ".", ",", "-"
    and "+". *)
Definition isFloat (s : string) : bool :=
  if decide (s ∈ [""; "."; ","; "-"; "+"]) then false else
  let s1 := snd (Js.readSign s) in
  let s2 := dropDigits s1 in
  let s3 := match s2 with String "." r => dropDigits r | _ => s2 end in
  match s3 with
  | EmptyString => true
  | String c r =>
      if (Js.code c =? 101) || (Js.code c =? 69) then
        let r1 := snd (Js.readSign r) in
        match r1 with
        | EmptyString => false
        | String _ _ => allDigits r1
        end
      else false
  end.

(** The messages of the failed checks of the two coordinate routes. *)
Definition coordsErrors (lat lon : string) : list string :=
  (if isFloat lat then [] else ["Invalid latitude"]) ++
  (if isFloat lon then [] else ["Invalid longitude"]).

(** Modelled from the spec: the [validate] middleware is not among the
    sources.  Bad input is a validation failure: the request ends there
    and reaches neither the cache nor the weather service. *)
Definition validate (errors : list string) : M unit :=
  match errors with
  | [] => mret tt
  | _ :: _ => throw (ValidationError errors)
  end.

Definition currentCoords (lat lon : string) : M Payload :=
  validate (coordsErrors lat lon);;
  WeatherController.getCurrentWeatherByCoords lat lon.

Definition forecastCoords (lat lon : string) : M Payload :=
  validate (coordsErrors lat lon);;
  WeatherController.getForecastByCoords lat lon.

(** The validator behind [isInt({ min, max })]: the whole string is an
    optional sign and at least one digit, and the number it denotes lies
    between the bounds. *)
Definition isInt (min max : Z) (s : string) : bool :=
  let '(sign, body) := Js.readSign s in
  match body with
  | EmptyString => false
  | String _ _ =>
      allDigits body &&
      (let v := sign * (Js.readDigits Js.digit 10 0 0%nat body).1.1 in
       (min <=? v) && (v <=? max))
  end.


End WeatherRoutes.

(** ** The six operations, seen uniformly *)

Inductive Request :=
| GetCurrent (location : string)
| GetCurrentCoords (lat lon : string)
| GetForecast (location : string)
| GetForecastCoords (lat lon : string)
| GetHistory (location : string) (days : option string)
| GetAlerts (location : string).

(** The controller method each route ends with. *)
Definition serve (r : Request) : M Payload :=
  match r with
  | GetCurrent location => WeatherController.getCurrentWeather location
  | GetCurrentCoords lat lon => WeatherController.getCurrentWeatherByCoords lat lon
  | GetForecast location => WeatherController.getForecast location
  | GetForecastCoords lat lon => WeatherController.getForecastByCoords lat lon
  | GetHistory location days => WeatherController.getHistoricalWeather location days
  | GetAlerts location => WeatherController.getWeatherAlerts location
  end.

(** The day count the historical handler works with. *)
Definition dayCount (queryDays : option string) : Z :=
  Js.orDefault (Js.parseInt queryDays) 7.

(** The key each cached handler builds; the alerts handler builds none. *)
Definition cacheKey (r : Request) : option string :=
  match r with
  | GetCurrent location => Some ("weather:current:" +:+ location)
  | GetCurrentCoords lat lon =>
      Some ("weather:coords:" +:+ Js.toString (Js.parseFloat lat) +:+ ":"
              +:+ Js.toString (Js.parseFloat lon))
  | GetForecast location => Some ("forecast:" +:+ location)
  | GetForecastCoords lat lon =>
      Some ("forecast:coords:" +:+ Js.toString (Js.parseFloat lat) +:+ ":"
              +:+ Js.toString (Js.parseFloat lon))
  | GetHistory location days =>
      Some ("history:" +:+ location +:+ ":" +:+ pretty (dayCount days))
  | GetAlerts _ => None
  end.

(** The TTL each cached handler passes to [cacheService.set]. *)
Definition cacheTtl (r : Request) : Z :=
  match r with
  | GetCurrent _ | GetCurrentCoords _ _ => 600
  | GetForecast _ | GetForecastCoords _ _ => 1800
  | GetHistory _ _ => 3600
  | GetAlerts _ => 0
  end.

#[global] Instance M_fmap : FMap M := λ A B f m env s,
  match m env s with
  | (Ok a, s') => (Ok (f a), s')
  | (Throw e, s') => (Throw e, s')
  end.

(** The call on the weather service each handler makes, with its result
    as a response body. *)
Definition fetch (r : Request) : M Payload :=
  match r with
  | GetCurrent location => PWeather <$> WeatherService.getCurrentWeather location
  | GetCurrentCoords lat lon =>
      PWeather <$> WeatherService.getCurrentWeatherByCoords
        (Js.parseFloat lat) (Js.parseFloat lon)
  | GetForecast location => PForecast <$> WeatherService.getForecast location
  | GetForecastCoords lat lon =>
      PForecast <$> WeatherService.getForecastByCoords
        (Js.parseFloat lat) (Js.parseFloat lon)
  | GetHistory location days =>
      PHistory <$> WeatherService.getHistoricalWeather location (dayCount days)
  | GetAlerts location => PAlerts <$> WeatherService.getWeatherAlerts location
  end.

(** The line each handler logs and the message of the error it throws. *)
Definition context (r : Request) : string :=
  match r with
  | GetCurrent _ => "getCurrentWeather error:"
  | GetCurrentCoords _ _ => "getCurrentWeatherByCoords error:"
  | GetForecast _ => "getForecast error:"
  | GetForecastCoords _ _ => "getForecastByCoords error:"
  | GetHistory _ _ => "getHistoricalWeather error:"
  | GetAlerts _ => "getWeatherAlerts error:"
  end.

Definition failure (r : Request) : string :=
  match r with
  | GetCurrent _ | GetCurrentCoords _ _ => "Failed to fetch weather data"
  | GetForecast _ | GetForecastCoords _ _ => "Failed to fetch forecast data"
  | GetHistory _ _ => "Failed to fetch historical weather data"
  | GetAlerts _ => "Failed to fetch weather alerts"
  end.

(** The shape the five cached handlers share. *)
Definition cacheAside (key : string) (seconds : Z) (source : M Payload)
           (line message : string) : M Payload :=
  tryCatch
    (cached ← CacheService.get key;
     match cached with
     | Some hit => mret hit
     | None =>
         body ← source;
         CacheService.set key body seconds;;
         mret body
     end)
    (λ error, logger_error line error;; throw (ApiError 500 message)).



Definition isCacheSet (e : Event) : bool :=
  match e with
  | CacheSet _ _ _ => true
  | _ => false
  end.

Definition isCacheEvent (e : Event) : bool :=
  match e with
  | CacheGet _ | CacheSet _ _ _ => true
  | _ => false
  end.

Definition isUpstream (e : Event) : bool :=
  match e with
  | Service _ | HttpGet _ => true
  | _ => false
  end.

(** ** What the spec calls a logical request *)

Inductive Kind := Current | Forecast | Historical | Alerts.

(** The request kind, the location or the coordinates, and the day count
    of a historical request. *)
Definition logical (r : Request) : Kind * Place * option Z :=
  match r with
  | GetCurrent location => (Current, ByName location, None)
  | GetCurrentCoords lat lon =>
      (Current, ByCoords (Js.parseFloat lat) (Js.parseFloat lon), None)
  | GetForecast location => (Forecast, ByName location, None)
  | GetForecastCoords lat lon =>
      (Forecast, ByCoords (Js.parseFloat lat) (Js.parseFloat lon), None)
  | GetHistory location days =>
      (Historical, ByName location, Some (dayCount days))
  | GetAlerts location => (Alerts, ByName location, None)
  end.

(** ** A sample deployment, for the concrete checks *)

Module Sample.

Definition clearSky : Owm.Condition := {|
  Owm.main := Some "Clear";
  Owm.cond_description := Some "clear sky";
  Owm.cond_icon := Some "01d" |}.

Definition lahore : Owm.Current := {|
  Owm.name := Some "Lahore";
  Owm.sys := Some {| Owm.sys_country := Some "PK" |};
  Owm.c_main := Some {|
    Owm.temp := Some (31 # 1); Owm.feels_like := Some (33 # 1);
    Owm.main_humidity := Some (40 # 1); Owm.main_pressure := Some (1008 # 1) |};
  Owm.c_wind := Some {| Owm.speed := Some (5 # 1); Owm.deg := Some (90 # 1) |};
  Owm.c_visibility := Some (6000 # 1);
  Owm.c_weather := Some [clearSky];
  Owm.coord := Some {| Owm.lat := Some (3155 # 100); Owm.lon := Some (7434 # 100) |}
|}.

(** A reply without its [name] and without a temperature. *)
Definition nameless : Owm.Current := {|
  Owm.name := None;
  Owm.sys := Owm.sys lahore;
  Owm.c_main := Some {|
    Owm.temp := None; Owm.feels_like := Some (33 # 1);
    Owm.main_humidity := Some (40 # 1); Owm.main_pressure := Some (1008 # 1) |};
  Owm.c_wind := Owm.c_wind lahore;
  Owm.c_visibility := Owm.c_visibility lahore;
  Owm.c_weather := Owm.c_weather lahore;
  Owm.coord := Owm.coord lahore
|}.

(** A reply without its [sys] object. *)
Definition truncated : Owm.Current := {|
  Owm.name := Some "Lahore";
  Owm.sys := None;
  Owm.c_main := Owm.c_main lahore;
  Owm.c_wind := Owm.c_wind lahore;
  Owm.c_visibility := Owm.c_visibility lahore;
  Owm.c_weather := Owm.c_weather lahore;
  Owm.coord := Owm.coord lahore
|}.

Definition provider (r : HttpRequest) : AxiosResult Owm.Current :=
  match place r with
  | ByName q =>
      if String.eqb q "Atlantis" then Rejected (Some 404)
      else if String.eqb q "Offline" then Rejected None
      else if String.eqb q "Nameless" then Resolved nameless
      else if String.eqb q "Truncated" then Resolved truncated
      else Resolved lahore
  | ByCoords _ _ => Resolved lahore
  end.

Definition forecasts (r : HttpRequest) : AxiosResult Owm.Forecast :=
  Resolved {| Owm.list := Some [] |}.

(** Draws near 0.3, 0.9, 0.5, 0.1, then 0.3 again and so on. *)
Definition draws (i : nat) : N :=
  match (i mod 4)%nat with
  | 0%nat => 2702159776422298
  | 1%nat => 8106479329266893
  | 2%nat => 4503599627370496
  | _ => 900719925474099
  end.

Definition env : Env := {|
  now := 1793548800000;
  random := draws;
  apiKey := "sample-key";
  weatherApi := provider;
  forecastApi := forecasts;
  cacheReadFault := false;
  cacheWriteFault := false |}.

Definition withFaults (read write : bool) (e : Env) : Env := {|
  now := now e;
  random := random e;
  apiKey := apiKey e;
  weatherApi := weatherApi e;
  forecastApi := forecastApi e;
  cacheReadFault := read;
  cacheWriteFault := write |}.

Definition at_ (t : Z) (e : Env) : Env := {|
  now := t;
  random := random e;
  apiKey := apiKey e;
  weatherApi := weatherApi e;
  forecastApi := forecastApi e;
  cacheReadFault := cacheReadFault e;
  cacheWriteFault := cacheWriteFault e |}.

Definition cold : State := {| store := ∅; drawn := 0; trace := [] |}.

(** What the transformer makes of [lahore] at the first draw. *)
Definition reading : WeatherData.t := {|
  WeatherData.location := Some "Lahore";
  WeatherData.country := Some "PK";
  WeatherData.temperature := Some (31 # 1);
  WeatherData.feelsLike := Some (33 # 1);
  WeatherData.humidity := Some (40 # 1);
  WeatherData.pressure := Some (1008 # 1);
  WeatherData.windSpeed := Some (90 # 5);
  WeatherData.windDirection := Some (90 # 1);
  WeatherData.visibility := Some (6000 # 1000);
  WeatherData.uvIndex := 3;
  WeatherData.condition := "clear";
  WeatherData.description := Some "clear sky";
  WeatherData.icon := Some "01d";
  WeatherData.timestamp := 1793548800000;
  WeatherData.coordinates := (Some (3155 # 100), Some (7434 # 100))
|}.

(** The state after one request for Lahore on a cold cache, its log
    cleared. *)
Definition warm : State :=
  let s := snd (serve (GetCurrent "Lahore") env cold) in
  {| store := store s; drawn := drawn s; trace := [] |}.

End Sample.

(** ** Computations that leave the cache alone *)

(** The computation never changes the store and logs no call on the cache
    service. *)
Definition cacheFree {A} (m : M A) : Prop :=
  ∀ env s,
    store (snd (m env s)) = store s ∧
    ∃ events,
      trace (snd (m env s)) = trace s ++ events ∧
      Forall (λ e, isCacheEvent e = false) events.

(** The objects the current-weather transformer dereferences are all
    there: [sys], [main], [wind], [weather[0].main] and [coord]. *)
Definition complete (data : Owm.Current) : bool :=
  bool_decide (is_Some (Owm.sys data)) &&
  bool_decide (is_Some (Owm.c_main data)) &&
  bool_decide (is_Some (Owm.c_wind data)) &&
  bool_decide (is_Some (Owm.c_weather data ≫= λ l, index l 0 ≫= Owm.main)) &&
  bool_decide (is_Some (Owm.coord data)).

(** The request the service sends for a place. *)
Definition httpRequest (path : string) (p : Place) (env : Env) : HttpRequest :=
  {| url := WeatherService.baseUrl +:+ path; place := p;
     appid := apiKey env; units := "metric"; timeout := 10000 |}.

(** The state in which a service method transforms the reply. *)
Definition afterReply (call : ServiceCall) (request : HttpRequest) (s : State)
  : State :=
  record (HttpGet request) (record (Service call) s).

(** The bounds of a generated historical entry. *)
Definition plausible (e : HistoricalData.t) : Prop :=
  (20 <= HistoricalData.temperature e)%Q ∧
  (HistoricalData.temperature e < 35)%Q ∧
  (40 <= HistoricalData.humidity e)%Q ∧
  (HistoricalData.humidity e < 80)%Q ∧
  (0 <= HistoricalData.windSpeed e)%Q ∧
  (HistoricalData.windSpeed e < 20)%Q ∧
  HistoricalData.condition e ∈ [Some "clear"; Some "clouds"; Some "rain"].



(** ** More vocabulary *)

Definition kindOf (body : Payload) : Kind :=
  match body with
  | PWeather _ => Current
  | PForecast _ => Forecast
  | PHistory _ => Historical
  | PAlerts _ => Alerts
  end.

Definition requestKind (r : Request) : Kind := (logical r).1.1.

Definition byCoordinates (r : Request) : bool :=
  match r with
  | GetCurrentCoords _ _ | GetForecastCoords _ _ => true
  | _ => false
  end.

(** Every entry that a request can read holds a payload of the kind of
    that request. *)
Definition consistent (m : gmap string CacheEntry) : Prop :=
  ∀ r key entry,
    cacheKey r = Some key → m !! key = Some entry →
    kindOf (payload entry) = requestKind r.

(** The method of the weather service a handler calls, and the request
    that method sends to the provider, if it sends one. *)
Definition callOf (r : Request) : ServiceCall :=
  match r with
  | GetCurrent location => CallCurrent location
  | GetCurrentCoords lat lon =>
      CallCurrentByCoords (Js.parseFloat lat) (Js.parseFloat lon)
  | GetForecast location => CallForecast location
  | GetForecastCoords lat lon =>
      CallForecastByCoords (Js.parseFloat lat) (Js.parseFloat lon)
  | GetHistory location days => CallHistorical location (dayCount days)
  | GetAlerts location => CallAlerts location
  end.

Definition providerRequest (r : Request) (env : Env) : option HttpRequest :=
  match r with
  | GetCurrent location =>
      Some (httpRequest "/weather" (ByName location) env)
  | GetCurrentCoords lat lon =>
      Some (httpRequest "/weather"
              (ByCoords (Js.parseFloat lat) (Js.parseFloat lon)) env)
  | GetForecast location =>
      Some (httpRequest "/forecast" (ByName location) env)
  | GetForecastCoords lat lon =>
      Some (httpRequest "/forecast"
              (ByCoords (Js.parseFloat lat) (Js.parseFloat lon)) env)
  | GetHistory _ _ | GetAlerts _ => None
  end.

Definition isHttpGet (e : Event) : bool :=
  match e with
  | HttpGet _ => true
  | _ => false
  end.

Definition isService (e : Event) : bool :=
  match e with
  | Service _ => true
  | _ => false
  end.

Definition isCacheGet (e : Event) : bool :=
  match e with
  | CacheGet _ => true
  | _ => false
  end.

Definition isLogError (e : Event) : bool :=
  match e with
  | LogError _ _ => true
  | _ => false
  end.


(** The string has the character in it. *)
Fixpoint mentions (c : ascii) (s : string) : bool :=
  match s with
  | String c' r => Ascii.eqb c c' || mentions c r
  | EmptyString => false
  end.

(** How many events of a log satisfy a test. *)
Definition occurrences (p : Event → bool) (events : list Event) : nat :=
  length (List.filter p events).

(** An event a request may log: a cache access under its own key (a write
    with its own TTL), the call on its method of the weather service, the
    one request to the provider that method sends, or an error line. *)
Definition expected (r : Request) (env : Env) (e : Event) : Prop :=
  match e with
  | CacheGet key => cacheKey r = Some key
  | CacheSet key _ seconds => cacheKey r = Some key ∧ seconds = cacheTtl r
  | Service call => call = callOf r
  | HttpGet request => providerRequest r env = Some request
  | LogError _ _ => True
  end.

(** The computation logs nothing and draws nothing. *)
Definition silent {A} (m : M A) : Prop :=
  ∀ env s, snd (m env s) = s.

(** * Properties *)

(** ** Sanity checks of the primitives *)

Example parseInt_plain : Js.parseInt (Some "7") = Some 7.
Proof. reflexivity. Qed.

Example parseInt_prefix : Js.parseInt (Some " -3x") = Some (-3).
Proof. reflexivity. Qed.

Example parseInt_hex : Js.parseInt (Some "0x1f") = Some 31.
Proof. reflexivity. Qed.

Example parseInt_words : Js.parseInt (Some "abc") = None.
Proof. reflexivity. Qed.

Example parseFloat_fraction : Js.toString (Js.parseFloat "-74.0060") = "-74.006".
Proof. reflexivity. Qed.

Example parseFloat_integral : Js.toString (Js.parseFloat "40.0") = "40".
Proof. reflexivity. Qed.

Example parseFloat_exponent : Js.toString (Js.parseFloat "25e-1") = "2.5".
Proof. reflexivity. Qed.

Example parseFloat_leading_point : Js.toString (Js.parseFloat "-.050") = "-0.05".
Proof. reflexivity. Qed.

Example isFloat_samples :
  map WeatherRoutes.isFloat ["40.7128"; "-74"; "1."; "-.5e-3"; "95"]
    = [true; true; true; true; true] ∧
  map WeatherRoutes.isFloat [""; "."; "abc"; "1e"; "Infinity"; "1.2.3"; "12 "]
    = [false; false; false; false; false; false; false].
Proof. split; reflexivity. Qed.

(** ** The monad *)

Ltac run :=
  cbv [mbind M_bind mret M_ret fmap M_fmap tryCatch throw ask emit
       logger_error deref].

Lemma bind_ok {A B} (m : M A) (f : A → M B) env s a s1 :
  m env s = (Ok a, s1) → (m ≫= f) env s = f a env s1.
Proof. intros H. run. by rewrite H. Qed.

Lemma bind_throw {A B} (m : M A) (f : A → M B) env s e s1 :
  m env s = (Throw e, s1) → (m ≫= f) env s = (Throw e, s1).
Proof. intros H. run. by rewrite H. Qed.

Lemma tryCatch_ok {A} (m : M A) h env s a s1 :
  m env s = (Ok a, s1) → tryCatch m h env s = (Ok a, s1).
Proof. intros H. run. by rewrite H. Qed.


(** ** The five cached handlers are instances of one shape *)

Lemma serve_cacheAside (r : Request) (key : string) env s :
  cacheKey r = Some key →
  serve r env s =
    cacheAside key (cacheTtl r) (fetch r) (context r) (failure r) env s.
Proof.
  destruct r; intros [= <-]; simpl;
    cbv [WeatherController.getCurrentWeather
         WeatherController.getCurrentWeatherByCoords
         WeatherController.getForecast
         WeatherController.getForecastByCoords
         WeatherController.getHistoricalWeather
         WeatherController.res_json cacheAside dayCount];
    run;
    (destruct (CacheService.get _ env s) as [[[hit|]|e] s0]; [done| |done]);
    match goal with
    | |- context [?svc env s0] =>
        match type of (svc env s0) with
        | (Result _ * State)%type => destruct (svc env s0) as [[a|e] s1]
        end
    end; done.
Qed.

Lemma serve_alerts (location : string) env s :
  serve (GetAlerts location) env s =
    tryCatch (fetch (GetAlerts location))
      (λ error, logger_error (context (GetAlerts location)) error;;
                throw (ApiError 500 (failure (GetAlerts location)))) env s.
Proof.
  simpl. cbv [WeatherController.getWeatherAlerts WeatherController.res_json].
  run. by destruct (WeatherService.getWeatherAlerts location env s) as [[a|e] s1].
Qed.

Section CacheAside.

Variables (key line message : string) (seconds : Z) (source : M Payload).
Variables (env : Env) (s : State).

Lemma cacheAside_hit hit :
  cacheReadFault env = false →
  CacheService.lookup (store s) (now env) key = Some hit →
  cacheAside key seconds source line message env s = (Ok hit, record (CacheGet key) s).
Proof.
  intros Hf Hl. cbv [cacheAside CacheService.get]. run.
  by rewrite Hf, Hl.
Qed.

Lemma cacheAside_read_fault :
  cacheReadFault env = true →
  cacheAside key seconds source line message env s =
    (Throw (ApiError 500 message),
     record (LogError line CacheError) (record (CacheGet key) s)).
Proof.
  intros Hf. cbv [cacheAside CacheService.get]. run.
  by rewrite Hf.
Qed.

Lemma cacheAside_source_throws e s1 :
  cacheReadFault env = false →
  CacheService.lookup (store s) (now env) key = None →
  source env (record (CacheGet key) s) = (Throw e, s1) →
  cacheAside key seconds source line message env s =
    (Throw (ApiError 500 message), record (LogError line e) s1).
Proof.
  intros Hf Hl Hs. cbv [cacheAside CacheService.get]. run.
  by rewrite Hf, Hl, Hs.
Qed.

Lemma cacheAside_source_returns body s1 :
  cacheReadFault env = false →
  CacheService.lookup (store s) (now env) key = None →
  source env (record (CacheGet key) s) = (Ok body, s1) →
  cacheAside key seconds source line message env s =
    if cacheWriteFault env then
      (Throw (ApiError 500 message),
       record (LogError line CacheError)
         (record (CacheSet key body seconds) s1))
    else
      (Ok body,
       {| store := <[key := {| payload := body; insertedAt := now env;
                               ttl := seconds |}]> (store s1);
          drawn := drawn s1;
          trace := trace s1 ++ [CacheSet key body seconds] |}).
Proof.
  intros Hf Hl Hs.
  cbv [cacheAside CacheService.get CacheService.set]. run.
  rewrite Hf, Hl, Hs. by destruct (cacheWriteFault env).
Qed.

End CacheAside.

(** ** The weather service never touches the cache *)

Section CacheFree.

Context {A B : Type}.

Lemma cacheFree_ret (a : A) : cacheFree (mret a).
Proof. intros env s. split; [done|]. exists []. by rewrite app_nil_r. Qed.

Lemma cacheFree_throw (e : JsError) : cacheFree (throw (A:=A) e).
Proof. intros env s. split; [done|]. exists []. by rewrite app_nil_r. Qed.

Lemma cacheFree_ask (f : Env → A) : cacheFree (ask f).
Proof. intros env s. split; [done|]. exists []. by rewrite app_nil_r. Qed.

Lemma cacheFree_deref (x : option A) : cacheFree (deref x).
Proof. destruct x; [apply cacheFree_ret | apply cacheFree_throw]. Qed.

Lemma cacheFree_bind (m : M A) (f : A → M B) :
  cacheFree m → (∀ a, cacheFree (f a)) → cacheFree (m ≫= f).
Proof.
  intros Hm Hf env s. destruct (Hm env s) as (Hst & evs & Htr & Hev).
  run. destruct (m env s) as [[a|e] s1]; simpl in *; [|eauto].
  destruct (Hf a env s1) as (Hst' & evs' & Htr' & Hev').
  split; [congruence|]. exists (evs ++ evs').
  rewrite Htr', Htr, app_assoc. split; [done|]. by apply Forall_app.
Qed.

Lemma cacheFree_tryCatch (m : M A) (h : JsError → M A) :
  cacheFree m → (∀ e, cacheFree (h e)) → cacheFree (tryCatch m h).
Proof.
  intros Hm Hh env s. destruct (Hm env s) as (Hst & evs & Htr & Hev).
  run. destruct (m env s) as [[a|e] s1]; simpl in *; [eauto|].
  destruct (Hh e env s1) as (Hst' & evs' & Htr' & Hev').
  split; [congruence|]. exists (evs ++ evs').
  rewrite Htr', Htr, app_assoc. split; [done|]. by apply Forall_app.
Qed.

Lemma cacheFree_fmap (f : A → B) (m : M A) : cacheFree m → cacheFree (f <$> m).
Proof.
  intros Hm env s. specialize (Hm env s). run.
  by destruct (m env s) as [[a|e] s1].
Qed.

End CacheFree.

Lemma cacheFree_emit (e : Event) : isCacheEvent e = false → cacheFree (emit e).
Proof.
  intros He env s. split; [done|]. exists [e]. split; [done|].
  by repeat constructor.
Qed.

Lemma cacheFree_random : cacheFree Math_random.
Proof. intros env s. split; [done|]. exists []. by rewrite app_nil_r. Qed.

Lemma cacheFree_axios {D} (api : Env → HttpRequest → AxiosResult D) r :
  cacheFree (WeatherService.axios_get api r).
Proof.
  intros env s. unfold WeatherService.axios_get.
  destruct (api env r); (split; [done|]); exists [HttpGet r];
    (split; [done|]); by repeat constructor.
Qed.

Create HintDb cachefree.

#[local] Hint Resolve cacheFree_ret cacheFree_throw cacheFree_ask
  cacheFree_deref cacheFree_random cacheFree_axios cacheFree_emit
  cacheFree_fmap : cachefree.

(** Splits a computation at its binds and handlers, then at the
    conditionals in it. *)
Ltac cache_free :=
  repeat first
    [ solve [eauto with cachefree]
    | apply cacheFree_bind; [|intros ?]
    | apply cacheFree_tryCatch; [|intros ?]
    | progress unfold logger_error
    | match goal with
      | |- cacheFree (if ?c then _ else _) => destruct c
      | |- cacheFree (match ?x with _ => _ end) => destruct x
      end ].

Lemma cacheFree_mapM {A B} (f : A → M B) (items : list A) :
  (∀ a, cacheFree (f a)) → cacheFree (WeatherService.mapM f items).
Proof. intros Hf. induction items as [|x rest IH]; simpl; cache_free. Qed.

Lemma cacheFree_transformWeatherData data :
  cacheFree (WeatherService.transformWeatherData data).
Proof. unfold WeatherService.transformWeatherData. cache_free. Qed.

Lemma cacheFree_transformForecastData data :
  cacheFree (WeatherService.transformForecastData data).
Proof.
  unfold WeatherService.transformForecastData. cache_free.
  apply cacheFree_mapM. intros item. unfold WeatherService.transformItem.
  cache_free.
Qed.

Lemma cacheFree_historicalLoop currentDate i acc :
  cacheFree (WeatherService.historicalLoop currentDate i acc).
Proof.
  revert acc. induction i as [|i IH]; intros acc; simpl; [cache_free|].
  apply cacheFree_bind; [|intros entry; apply IH].
  unfold WeatherService.historicalEntry. cache_free.
Qed.

#[local] Hint Resolve cacheFree_transformWeatherData
  cacheFree_transformForecastData cacheFree_historicalLoop : cachefree.

Lemma cacheFree_fetch (r : Request) : cacheFree (fetch r).
Proof.
  destruct r; simpl; apply cacheFree_fmap;
    cbv [WeatherService.getCurrentWeather
         WeatherService.getCurrentWeatherByCoords
         WeatherService.getForecast WeatherService.getForecastByCoords
         WeatherService.getHistoricalWeather
         WeatherService.getWeatherAlerts];
    cache_free.
Qed.

(** Every handler queries the cache first, under [cacheKey], if it has
    one. *)
Lemma serve_queries_cacheKey (r : Request) (key : string) env s :
  cacheKey r = Some key →
  ∃ events, trace (snd (serve r env s)) = trace s ++ CacheGet key :: events.
Proof.
  intros Hk. rewrite (serve_cacheAside r key env s Hk).
  assert (∀ A (m : M A) (x : Result A * State) s0,
            m env s0 = x → m env s0 = (fst x, snd x)) as split_run
    by (intros ? ? [] ? ->; done).
  destruct (cacheReadFault env) eqn:Hf.
  { rewrite cacheAside_read_fault by done. simpl.
    exists [LogError (context r) CacheError]. by rewrite <- app_assoc. }
  destruct (CacheService.lookup (store s) (now env) key) as [hit|] eqn:Hl.
  { rewrite (cacheAside_hit _ _ _ _ _ _ _ hit) by done. by exists []. }
  destruct (cacheFree_fetch r env (record (CacheGet key) s))
    as (_ & evs & Htr & _).
  destruct (fetch r env (record (CacheGet key) s)) as [[body|e] s1] eqn:Hs;
    simpl in Htr.
  - rewrite (cacheAside_source_returns _ _ _ _ _ _ _ body s1) by done.
    destruct (cacheWriteFault env); simpl; rewrite Htr, <- !app_assoc; simpl;
      eauto.
  - rewrite (cacheAside_source_throws _ _ _ _ _ _ _ e s1) by done.
    simpl. rewrite Htr, <- !app_assoc. simpl. eauto.
Qed.

(** ** The cache-aside protocol *)

Lemma lookup_Some (m : gmap string CacheEntry) (t : Z) (key : string)
      (hit : Payload) :
  CacheService.lookup m t key = Some hit ↔
  ∃ entry, m !! key = Some entry ∧ t < insertedAt entry + 1000 * ttl entry ∧
           payload entry = hit.
Proof.
  unfold CacheService.lookup, CacheService.valid. split.
  - destruct (m !! key) as [entry|]; [|done].
    destruct (Z.ltb_spec t (insertedAt entry + 1000 * ttl entry)); [|done].
    intros [= <-]. eauto.
  - intros (entry & -> & Hlt & <-).
    by destruct (Z.ltb_spec t (insertedAt entry + 1000 * ttl entry)); [|lia].
Qed.

Lemma lookup_None (m : gmap string CacheEntry) (t : Z) (key : string) :
  CacheService.lookup m t key = None ↔
  m !! key = None ∨
  ∃ entry, m !! key = Some entry ∧ insertedAt entry + 1000 * ttl entry ≤ t.
Proof.
  unfold CacheService.lookup, CacheService.valid. split.
  - destruct (m !! key) as [entry|]; [|by left].
    destruct (Z.ltb_spec t (insertedAt entry + 1000 * ttl entry)); [done|].
    right. eauto.
  - intros [->|(entry & -> & Hle)]; [done|].
    by destruct (Z.ltb_spec t (insertedAt entry + 1000 * ttl entry)); [lia|].
Qed.

(** C1. For each of the five cached request kinds, when the cache read
    works and the store holds, under the key of the request, an entry that
    has not expired, the handler responds with the payload of that entry,
    and all it does is the one cache read: the store and the random source
    are untouched and the log gains the [CacheGet] event only, so there is
    neither a call on the weather service, nor an HTTP request, nor a
    cache write. *)
Theorem cache_hit_short_circuits
        (r : Request) (key : string) (entry : CacheEntry)
        (env : Env) (s : State) :
  cacheKey r = Some key →
  cacheReadFault env = false →
  store s !! key = Some entry →
  now env < insertedAt entry + 1000 * ttl entry →
  serve r env s = (Ok (payload entry), record (CacheGet key) s) ∧
  store (snd (serve r env s)) = store s ∧
  ∃ events,
    trace (snd (serve r env s)) = trace s ++ events ∧
    Forall (λ e, isUpstream e = false ∧ isCacheSet e = false) events.
Proof.
  intros Hk Hf Hentry Hfresh.
  assert (CacheService.lookup (store s) (now env) key = Some (payload entry))
    as Hl by (apply lookup_Some; eauto).
  rewrite (serve_cacheAside r key env s Hk).
  rewrite (cacheAside_hit _ _ _ _ _ _ _ (payload entry) Hf Hl). simpl.
  repeat split. exists [CacheGet key]. split; [done|]. by repeat constructor.
Qed.

Lemma cache_hit_short_circuits_witness :
  serve (GetCurrent "Lahore") (Sample.at_ 1793549399999 Sample.env) Sample.warm
    = (Ok (PWeather Sample.reading),
       record (CacheGet "weather:current:Lahore") Sample.warm) ∧
  store (snd (serve (GetCurrent "Lahore")
                (Sample.at_ 1793549399999 Sample.env) Sample.warm))
    = store Sample.warm ∧
  ∃ events,
    trace (snd (serve (GetCurrent "Lahore")
                  (Sample.at_ 1793549399999 Sample.env) Sample.warm))
      = trace Sample.warm ++ events ∧
    Forall (λ e, isUpstream e = false ∧ isCacheSet e = false) events.
Proof.
  apply (cache_hit_short_circuits (GetCurrent "Lahore")
           "weather:current:Lahore"
           {| payload := PWeather Sample.reading;
              insertedAt := 1793548800000; ttl := 600 |}
           (Sample.at_ 1793549399999 Sample.env) Sample.warm).
  - reflexivity.
  - reflexivity.
  - vm_compute. reflexivity.
  - vm_compute. reflexivity.
Defined.

(** One millisecond later the entry has expired and the same request is a
    miss: the weather service is called again. *)
Example expired_entry_is_a_miss :
  trace (snd (serve (GetCurrent "Lahore")
                (Sample.at_ 1793549400000 Sample.env) Sample.warm))
    !! 1%nat = Some (Service (CallCurrent "Lahore")).
Proof. vm_compute. reflexivity. Qed.

(** C2, as the code has it.  For each of the five cached request kinds a
    failure of the cache is fatal.  When the cache read faults, the
    handler throws [ApiError(500)] with its generic message after the
    cache read and one log line, without calling the weather service.
    When the read reports a miss and the cache write faults, the handler
    throws the same error, so the result of the weather service is not
    returned.  The store is unchanged in both cases. *)
Theorem cache_fault_is_fatal
        (r : Request) (key : string) (env : Env) (s : State) :
  cacheKey r = Some key →
  cacheReadFault env = true ∨
    (CacheService.lookup (store s) (now env) key = None ∧
     cacheWriteFault env = true) →
  ∃ s',
    serve r env s = (Throw (ApiError 500 (failure r)), s') ∧
    store s' = store s ∧
    (cacheReadFault env = true →
     s' = record (LogError (context r) CacheError) (record (CacheGet key) s)).
Proof.
  intros Hk Hfault. rewrite (serve_cacheAside r key env s Hk).
  destruct (cacheReadFault env) eqn:Hf.
  { rewrite cacheAside_read_fault by done. eauto. }
  destruct Hfault as [|[Hl Hw]]; [done|].
  destruct (cacheFree_fetch r env (record (CacheGet key) s)) as (Hst & _).
  destruct (fetch r env (record (CacheGet key) s)) as [[body|e] s1] eqn:Hs;
    simpl in Hst.
  - rewrite (cacheAside_source_returns _ _ _ _ _ _ _ body s1) by done.
    rewrite Hw. eexists. split; [done|]. split; [done|]. done.
  - rewrite (cacheAside_source_throws _ _ _ _ _ _ _ e s1) by done.
    eexists. split; [done|]. split; [done|]. done.
Qed.

Lemma cache_fault_is_fatal_witness :
  ∃ s',
    serve (GetCurrent "Lahore") (Sample.withFaults false true Sample.env)
          Sample.cold
      = (Throw (ApiError 500 "Failed to fetch weather data"), s') ∧
    store s' = store Sample.cold ∧
    (cacheReadFault (Sample.withFaults false true Sample.env) = true →
     s' = record (LogError "getCurrentWeather error:" CacheError)
            (record (CacheGet "weather:current:Lahore") Sample.cold)).
Proof.
  apply (cache_fault_is_fatal (GetCurrent "Lahore") "weather:current:Lahore"
           (Sample.withFaults false true Sample.env) Sample.cold).
  - reflexivity.
  - right. split; reflexivity.
Defined.

(** C2 as stated fails: with a cache whose reads fault, and with a cache
    whose writes fault, the weather service would answer the request for
    Lahore, yet the handler throws and the answer is lost; with the faulty
    read the weather service is not even called. *)
Lemma cache_fault_not_tolerated :
  fst (fetch (GetCurrent "Lahore") (Sample.withFaults true false Sample.env)
         (record (CacheGet "weather:current:Lahore") Sample.cold))
    = Ok (PWeather Sample.reading) ∧
  serve (GetCurrent "Lahore") (Sample.withFaults true false Sample.env)
        Sample.cold
    = (Throw (ApiError 500 "Failed to fetch weather data"),
       {| store := ∅; drawn := 0;
          trace := [CacheGet "weather:current:Lahore";
                    LogError "getCurrentWeather error:" CacheError] |}) ∧
  fst (fetch (GetCurrent "Lahore") (Sample.withFaults false true Sample.env)
         (record (CacheGet "weather:current:Lahore") Sample.cold))
    = Ok (PWeather Sample.reading) ∧
  fst (serve (GetCurrent "Lahore") (Sample.withFaults false true Sample.env)
         Sample.cold)
    = Throw (ApiError 500 "Failed to fetch weather data").
Proof. repeat split; vm_compute; reflexivity. Qed.

(** What an alerts request does, in full. *)
Lemma getWeatherAlerts_run (location : string) env s :
  WeatherService.getWeatherAlerts location env s =
    (Ok (if Qlt_le_dec (8 # 10) (unitInterval (random env (drawn s)))
         then [WeatherService.heatWave location (now env) (now env)]
         else []),
     {| store := store s; drawn := S (drawn s);
        trace := trace s ++ [Service (CallAlerts location)] |}).
Proof.
  unfold WeatherService.getWeatherAlerts. run. unfold Math_random. simpl.
  by destruct (Qlt_le_dec _ _).
Qed.

Lemma alerts_always_live (location : string) env s :
  ∃ alerts,
    serve (GetAlerts location) env s =
      (Ok (PAlerts alerts),
       {| store := store s; drawn := S (drawn s);
          trace := trace s ++ [Service (CallAlerts location)] |}).
Proof.
  rewrite serve_alerts. simpl. run. rewrite getWeatherAlerts_run. eauto.
Qed.

(** C5. On a cache miss followed by a successful answer of the weather
    service, with a working cache, the handler issues one cache write of
    that answer under the key of the request, with a TTL of 600 seconds
    for current weather, 1800 for a forecast and 3600 for historical data;
    the entry is stored and the answer is returned.  An alerts request
    always calls the weather service and never reads or writes the cache;
    so do two alerts requests in a row. *)
Theorem miss_writes_with_ttl
        (r : Request) (key : string) (body : Payload)
        (env : Env) (s s1 : State) :
  cacheKey r = Some key →
  cacheReadFault env = false →
  cacheWriteFault env = false →
  CacheService.lookup (store s) (now env) key = None →
  fetch r env (record (CacheGet key) s) = (Ok body, s1) →
  serve r env s =
    (Ok body,
     {| store := <[key := {| payload := body; insertedAt := now env;
                             ttl := cacheTtl r |}]> (store s);
        drawn := drawn s1;
        trace := trace s1 ++ [CacheSet key body (cacheTtl r)] |}) ∧
  cacheTtl r =
    match logical r with
    | (Current, _, _) => 600
    | (Forecast, _, _) => 1800
    | (Historical, _, _) => 3600
    | (Alerts, _, _) => 0
    end ∧
  ∀ (location : string) (env' : Env) (s0 : State),
    cacheKey (GetAlerts location) = None ∧
    ∃ alerts1 alerts2 s2 s3,
      serve (GetAlerts location) env' s0 = (Ok (PAlerts alerts1), s2) ∧
      serve (GetAlerts location) env' s2 = (Ok (PAlerts alerts2), s3) ∧
      store s3 = store s0 ∧
      trace s3 = trace s0 ++ [Service (CallAlerts location);
                              Service (CallAlerts location)].
Proof.
  intros Hk Hf Hw Hl Hs. split; [|split].
  - rewrite (serve_cacheAside r key env s Hk).
    rewrite (cacheAside_source_returns _ _ _ _ _ _ _ body s1 Hf Hl Hs), Hw.
    destruct (cacheFree_fetch r env (record (CacheGet key) s)) as (Hst & _).
    rewrite Hs in Hst. simpl in Hst. by rewrite Hst.
  - by destruct r.
  - intros location env' s0. split; [done|].
    destruct (alerts_always_live location env' s0) as (a1 & H1).
    destruct (alerts_always_live location env'
                {| store := store s0; drawn := S (drawn s0);
                   trace := trace s0 ++ [Service (CallAlerts location)] |})
      as (a2 & H2).
    eexists a1, a2, _, _. split; [exact H1|]. split; [exact H2|].
    simpl. split; [done|]. by rewrite <- app_assoc.
Qed.

Lemma miss_writes_with_ttl_witness :
  serve (GetCurrent "Lahore") Sample.env Sample.cold =
    (Ok (PWeather Sample.reading),
     {| store := <["weather:current:Lahore" :=
                     {| payload := PWeather Sample.reading;
                        insertedAt := 1793548800000; ttl := 600 |}]> ∅;
        drawn := 1;
        trace := [CacheGet "weather:current:Lahore";
                  Service (CallCurrent "Lahore");
                  HttpGet {| url := "https://api.openweathermap.org/data/2.5/weather";
                             place := ByName "Lahore"; appid := "sample-key";
                             units := "metric"; timeout := 10000 |};
                  CacheSet "weather:current:Lahore"
                    (PWeather Sample.reading) 600] |}).
Proof.
  refine (proj1 (miss_writes_with_ttl (GetCurrent "Lahore")
           "weather:current:Lahore" (PWeather Sample.reading) Sample.env
           Sample.cold
           {| store := ∅; drawn := 1;
              trace := [CacheGet "weather:current:Lahore";
                        Service (CallCurrent "Lahore");
                        HttpGet {| url := "https://api.openweathermap.org/data/2.5/weather";
                                   place := ByName "Lahore";
                                   appid := "sample-key";
                                   units := "metric"; timeout := 10000 |}] |}
           _ _ _ _ _)).
  - reflexivity.
  - reflexivity.
  - reflexivity.
  - reflexivity.
  - vm_compute. reflexivity.
Defined.



(** ** Validation of coordinates *)

(** C3, as the code has it.  The two coordinate routes reject a request
    with a validation failure, before any cache access or upstream call,
    exactly when a path parameter is not a float literal.  Parameters that
    are float literals are accepted whatever their range: the request is
    handed to the controller, which starts with a cache read under the key
    of the parsed coordinates. *)
Theorem coords_validation_is_syntactic
        (lat lon : string) (env : Env) (s : State) :
  WeatherRoutes.currentCoords lat lon env s =
    (if WeatherRoutes.isFloat lat && WeatherRoutes.isFloat lon
     then WeatherController.getCurrentWeatherByCoords lat lon env s
     else (Throw (ValidationError (WeatherRoutes.coordsErrors lat lon)), s)) ∧
  WeatherRoutes.forecastCoords lat lon env s =
    (if WeatherRoutes.isFloat lat && WeatherRoutes.isFloat lon
     then WeatherController.getForecastByCoords lat lon env s
     else (Throw (ValidationError (WeatherRoutes.coordsErrors lat lon)), s)) ∧
  (∃ events,
     trace (snd (WeatherController.getCurrentWeatherByCoords lat lon env s)) =
       trace s ++
         CacheGet ("weather:coords:" +:+ Js.toString (Js.parseFloat lat)
                     +:+ ":" +:+ Js.toString (Js.parseFloat lon)) :: events) ∧
  (∃ events,
     trace (snd (WeatherController.getForecastByCoords lat lon env s)) =
       trace s ++
         CacheGet ("forecast:coords:" +:+ Js.toString (Js.parseFloat lat)
                     +:+ ":" +:+ Js.toString (Js.parseFloat lon)) :: events).
Proof.
  split; [|split; [|split]].
  - unfold WeatherRoutes.currentCoords, WeatherRoutes.coordsErrors.
    run. by destruct (WeatherRoutes.isFloat lat), (WeatherRoutes.isFloat lon).
  - unfold WeatherRoutes.forecastCoords, WeatherRoutes.coordsErrors.
    run. by destruct (WeatherRoutes.isFloat lat), (WeatherRoutes.isFloat lon).
  - by apply (serve_queries_cacheKey (GetCurrentCoords lat lon)).
  - by apply (serve_queries_cacheKey (GetForecastCoords lat lon)).
Qed.

(** C3 as stated fails: latitude 95 and longitude -200 are out of range,
    yet the route accepts the request, reads the cache, calls the weather
    service, which queries the provider, and caches the answer. *)
Lemma out_of_range_coords_accepted :
  Js.parseFloat "95" = Js.Fin (Js.mkDecimal 95 0) ∧
  Js.parseFloat "-200" = Js.Fin (Js.mkDecimal (-200) 0) ∧
  (90 < Js.decimalQ (Js.mkDecimal 95 0))%Q ∧
  (Js.decimalQ (Js.mkDecimal (-200) 0) < -180)%Q ∧
  fst (WeatherRoutes.currentCoords "95" "-200" Sample.env Sample.cold)
    = Ok (PWeather Sample.reading) ∧
  trace (snd (WeatherRoutes.currentCoords "95" "-200" Sample.env Sample.cold))
    = [CacheGet "weather:coords:95:-200";
       Service (CallCurrentByCoords (Js.Fin (Js.mkDecimal 95 0))
                  (Js.Fin (Js.mkDecimal (-200) 0)));
       HttpGet {| url := "https://api.openweathermap.org/data/2.5/weather";
                  place := ByCoords (Js.Fin (Js.mkDecimal 95 0))
                             (Js.Fin (Js.mkDecimal (-200) 0));
                  appid := "sample-key"; units := "metric";
                  timeout := 10000 |};
       CacheSet "weather:coords:95:-200" (PWeather Sample.reading) 600].
Proof. repeat split; vm_compute; reflexivity. Qed.

(** ** Failures of the provider *)

Lemma transformWeatherData_complete (data : Owm.Current) env s :
  if complete data then
    ∃ w, WeatherService.transformWeatherData data env s =
           (Ok w, {| store := store s; drawn := S (drawn s);
                     trace := trace s |}) ∧
         WeatherData.location w = Owm.name data ∧
         WeatherData.temperature w = (Owm.c_main data ≫= Owm.temp) ∧
         WeatherData.visibility w = Js.over (Owm.c_visibility data) (1000 # 1)
  else ∃ s', WeatherService.transformWeatherData data env s = (Throw TypeError, s').
Proof.
  destruct data as [name [sys|] [main|] [wind|] vis [[|w0 rest]|] [coord|]];
    try destruct w0 as [[m|] d i];
    cbv [complete WeatherService.transformWeatherData Math_random index];
    run; simpl; eauto.
Qed.

Lemma transformItem_throws item env s e s' :
  WeatherService.transformItem item env s = (Throw e, s') → e = TypeError.
Proof.
  destruct item as [dt [main|] [wind|] [[|w0 rest]|] pop];
    try destruct w0 as [[m|] d i];
    cbv [WeatherService.transformItem index]; run; simpl; congruence.
Qed.

Lemma transformForecastData_throws data env s e s' :
  WeatherService.transformForecastData data env s = (Throw e, s') →
  e = TypeError.
Proof.
  destruct data as [[items|]]; unfold WeatherService.transformForecastData;
    run; simpl; [|congruence].
  revert s. induction items as [|item rest IH]; intros s; simpl; run;
    [congruence|].
  destruct (WeatherService.transformItem item env s) as [[y|e0] s1] eqn:Hi.
  - specialize (IH s1).
    destruct (WeatherService.mapM WeatherService.transformItem rest env s1)
      as [[ys|e1] s2]; [congruence|].
    intros [= <- <-]. by apply IH.
  - intros [= <- <-]. by eapply transformItem_throws.
Qed.

(** C4, as the code has it.  At the weather service, a request by name,
    for current weather or for a forecast, maps a 404 of the provider to
    [ApiError(404, "Location not found")] and every other rejection (a
    timeout, a transport failure, another status) to
    [ApiError(500, "Weather service unavailable")].  A reply for current
    weather that lacks an object the transformer dereferences gives that
    same [ApiError(500)], and so does a forecast reply on which the
    transformer throws; a reply for current weather that has those objects
    is transformed and returned, with the leaf fields it lacks left
    undefined. *)
Theorem service_failure_mapping (location : string) (env : Env) (s : State) :
  fst (WeatherService.getCurrentWeather location env s) =
    match weatherApi env (httpRequest "/weather" (ByName location) env) with
    | Rejected status =>
        if decide (status = Some 404)
        then Throw (ApiError 404 "Location not found")
        else Throw (ApiError 500 "Weather service unavailable")
    | Resolved data =>
        if complete data then
          fst (WeatherService.transformWeatherData data env
                 (afterReply (CallCurrent location)
                    (httpRequest "/weather" (ByName location) env) s))
        else Throw (ApiError 500 "Weather service unavailable")
    end ∧
  fst (WeatherService.getForecast location env s) =
    match forecastApi env (httpRequest "/forecast" (ByName location) env) with
    | Rejected status =>
        if decide (status = Some 404)
        then Throw (ApiError 404 "Location not found")
        else Throw (ApiError 500 "Weather service unavailable")
    | Resolved data =>
        match fst (WeatherService.transformForecastData data env
                     (afterReply (CallForecast location)
                        (httpRequest "/forecast" (ByName location) env) s))
        with
        | Ok forecast => Ok forecast
        | Throw _ => Throw (ApiError 500 "Weather service unavailable")
        end
    end ∧
  ∀ data s0,
    complete data = true →
    ∃ w, fst (WeatherService.transformWeatherData data env s0) = Ok w ∧
         WeatherData.location w = Owm.name data ∧
         WeatherData.temperature w = (Owm.c_main data ≫= Owm.temp) ∧
         WeatherData.visibility w = Js.over (Owm.c_visibility data) (1000 # 1).
Proof.
  split; [|split].
  - unfold WeatherService.getCurrentWeather, WeatherService.axios_get,
      afterReply, httpRequest.
    run. simpl.
    destruct (weatherApi env _) as [data|status]; simpl.
    + match goal with
      | |- context [WeatherService.transformWeatherData data env ?s0] =>
          pose proof (transformWeatherData_complete data env s0) as H
      end.
      destruct (complete data).
      * by destruct H as (w & -> & _).
      * by destruct H as (s' & ->).
    + by case_bool_decide; case_decide.
  - unfold WeatherService.getForecast, WeatherService.axios_get,
      afterReply, httpRequest.
    run. simpl.
    destruct (forecastApi env _) as [data|status]; simpl.
    + destruct (WeatherService.transformForecastData data env _)
        as [[l|e] s1] eqn:Ht; [done|].
      by rewrite (transformForecastData_throws _ _ _ _ _ Ht).
    + by case_bool_decide; case_decide.
  - intros data s0 Hc.
    pose proof (transformWeatherData_complete data env s0) as H.
    rewrite Hc in H. destruct H as (w & -> & ?). eauto.
Qed.

(** C4 as stated fails.  Through the handler, a 404 of the provider, a
    timeout and a reply without its [sys] object all end in the same
    [ApiError(500, "Failed to fetch weather data")]; at the service the
    last two are the same [ApiError(500, "Weather service unavailable")];
    and a reply without a name and a temperature is returned to the
    caller with these fields undefined. *)
Lemma upstream_failures_conflated :
  fst (serve (GetCurrent "Atlantis") Sample.env Sample.cold)
    = Throw (ApiError 500 "Failed to fetch weather data") ∧
  fst (serve (GetCurrent "Offline") Sample.env Sample.cold)
    = Throw (ApiError 500 "Failed to fetch weather data") ∧
  fst (serve (GetCurrent "Truncated") Sample.env Sample.cold)
    = Throw (ApiError 500 "Failed to fetch weather data") ∧
  fst (WeatherService.getCurrentWeather "Offline" Sample.env Sample.cold)
    = Throw (ApiError 500 "Weather service unavailable") ∧
  fst (WeatherService.getCurrentWeather "Truncated" Sample.env Sample.cold)
    = Throw (ApiError 500 "Weather service unavailable") ∧
  ∃ w,
    fst (serve (GetCurrent "Nameless") Sample.env Sample.cold)
      = Ok (PWeather w) ∧
    WeatherData.location w = None ∧
    WeatherData.temperature w = None.
Proof.
  repeat split; try (vm_compute; reflexivity).
  eexists. repeat split; vm_compute; reflexivity.
Qed.

(** ** Cache keys *)



Example cacheKey_samples :
  cacheKey (GetCurrent "Lahore") = Some "weather:current:Lahore" ∧
  cacheKey (GetCurrentCoords "40.7128" "-74.0060")
    = Some "weather:coords:40.7128:-74.006" ∧
  cacheKey (GetForecast "Lahore") = Some "forecast:Lahore" ∧
  cacheKey (GetForecastCoords "31.5" "74") = Some "forecast:coords:31.5:74" ∧
  cacheKey (GetHistory "Lahore" None) = Some "history:Lahore:7" ∧
  cacheKey (GetHistory "Lahore" (Some "14")) = Some "history:Lahore:14".
Proof. repeat split; vm_compute; reflexivity. Qed.

(** ** The random source *)

Lemma unitInterval_range (k : N) :
  (0 <= unitInterval k)%Q ∧ (unitInterval k < 1)%Q.
Proof.
  unfold unitInterval, Qle, Qlt. cbn [Qnum Qden].
  pose proof (N.mod_lt k (2 ^ 53)%N ltac:(done)) as Hlt.
  set (x := (k mod 2 ^ 53)%N) in *.
  change (2 ^ 53)%N with 9007199254740992%N in Hlt. lia.
Qed.

(** [Math.floor(Math.random() * c)] is one of [0, ..., c - 1]. *)
Lemma floor_of_draw (k : N) (c : positive) :
  0 ≤ Math_floor (unitInterval k * (Z.pos c # 1)) < Z.pos c.
Proof.
  unfold Math_floor, unitInterval, Qmult, Qfloor. cbn [Qnum Qden].
  pose proof (N.mod_lt k (2 ^ 53)%N ltac:(done)) as Hlt.
  set (y := (k mod 2 ^ 53)%N) in *.
  change (2 ^ 53)%N with 9007199254740992%N in Hlt.
  set (x := Z.of_N y) in *.
  assert (0 ≤ x < 9007199254740992) as Hx by lia.
  rewrite Pos.mul_1_r. split.
  - apply Z.div_pos; [nia|done].
  - apply Z.div_lt_upper_bound; [done|nia].
Qed.

Lemma condition_of_draw (k : N) :
  index WeatherService.conditions (Math_floor (unitInterval k * (3 # 1)))
    ∈ [Some "clear"; Some "clouds"; Some "rain"].
Proof.
  pose proof (floor_of_draw k 3) as H.
  set (i := Math_floor _) in *.
  assert (i = 0 ∨ i = 1 ∨ i = 2) as Hi by lia.
  destruct Hi as [Hi|[Hi|Hi]]; rewrite Hi; simpl; repeat constructor.
Qed.

(** ** Historical data *)

Lemma historicalEntry_run (currentDate i : Z) env s :
  ∃ entry,
    WeatherService.historicalEntry currentDate i env s =
      (Ok entry, {| store := store s; drawn := 4 + drawn s;
                    trace := trace s |}) ∧
    HistoricalData.date entry = currentDate - i * WeatherService.day ∧
    plausible entry.
Proof.
  eexists. split; [|split].
  - unfold WeatherService.historicalEntry, Math_random. run. simpl.
    reflexivity.
  - reflexivity.
  - unfold plausible. simpl.
    destruct (unitInterval_range (random env (drawn s))) as [? ?].
    destruct (unitInterval_range (random env (S (drawn s)))) as [? ?].
    destruct (unitInterval_range (random env (S (S (drawn s))))) as [? ?].
    repeat split; try lra. apply condition_of_draw.
Qed.

Lemma historicalLoop_run (currentDate : Z) (i : nat) env :
  ∀ (acc : list HistoricalData.t) (s : State),
  ∃ entries,
    WeatherService.historicalLoop currentDate i acc env s =
      (Ok (acc ++ entries),
       {| store := store s; drawn := 4 * i + drawn s; trace := trace s |}) ∧
    length entries = i ∧
    (∀ (k : nat) entry,
       entries !! k = Some entry →
       HistoricalData.date entry
         = currentDate - (Z.of_nat i - Z.of_nat k) * WeatherService.day) ∧
    Forall plausible entries.
Proof.
  induction i as [|i IH]; intros acc s.
  - exists []. simpl. rewrite app_nil_r. destruct s. repeat split; try done.
  - destruct (historicalEntry_run currentDate (Z.of_nat (S i)) env s)
      as (entry & Hrun & Hdate & Hok).
    destruct (IH (acc ++ [entry])
                {| store := store s; drawn := 4 + drawn s; trace := trace s |})
      as (entries & Hloop & Hlen & Hdates & Hall).
    exists (entry :: entries).
    cbn [WeatherService.historicalLoop]. rewrite (bind_ok _ _ _ _ _ _ Hrun).
    rewrite Hloop. simpl. rewrite <- app_assoc. simpl.
    split; [do 3 f_equal; lia|]. split; [by rewrite Hlen|].
    split; [|by constructor].
    intros [|k] e; simpl.
    + intros [= <-]. rewrite Hdate. lia.
    + intros He. rewrite (Hdates k e He). lia.
Qed.




(** ** Alerts *)


Example alerts_sample :
  fst (WeatherService.getWeatherAlerts "Lahore" Sample.env Sample.cold) = Ok [] ∧
  fst (WeatherService.getWeatherAlerts "Lahore" Sample.env
         {| store := ∅; drawn := 1; trace := [] |})
    = Ok [WeatherService.heatWave "Lahore" 1793548800000 1793548800000].
Proof. split; vm_compute; reflexivity. Qed.

(** ** The UV index *)






(** * Further properties of the server *)

(** ** What the transformers log *)

Lemma transformWeatherData_trace (data : Owm.Current) env s :
  trace (snd (WeatherService.transformWeatherData data env s)) = trace s.
Proof.
  destruct data as [name [sys|] [main|] [wind|] vis [[|w0 rest]|] [coord|]];
    try destruct w0 as [[m|] d i];
    cbv [WeatherService.transformWeatherData Math_random index];
    run; reflexivity.
Qed.

Lemma silent_transformItem (item : Owm.Item) :
  silent (WeatherService.transformItem item).
Proof.
  intros env s.
  destruct item as [dt [main|] [wind|] [[|w0 rest]|] pop];
    try destruct w0 as [[m|] d i];
    cbv [WeatherService.transformItem index]; run; reflexivity.
Qed.

Lemma silent_mapM {A B} (f : A → M B) (items : list A) :
  (∀ a, silent (f a)) → silent (WeatherService.mapM f items).
Proof.
  intros Hf env. induction items as [|x rest IH]; intros s; [done|].
  simpl. run. specialize (Hf x env s).
  destruct (f x env s) as [[y|e] s1]; simpl in Hf; subst s1; [|done].
  specialize (IH s).
  by destruct (WeatherService.mapM f rest env s) as [[ys|e] s2].
Qed.

Lemma silent_transformForecastData (data : Owm.Forecast) :
  silent (WeatherService.transformForecastData data).
Proof.
  intros env s. destruct data as [[items|]];
    unfold WeatherService.transformForecastData; run; simpl; [|done].
  apply silent_mapM, silent_transformItem.
Qed.

(** ** What a call on the weather service logs *)

Ltac close_trace :=
  simpl; rewrite <- ?app_assoc; simpl;
  split_and!; [reflexivity | simpl; lia | by repeat constructor | done].

Lemma fetch_trace (r : Request) env s :
  ∃ errors,
    trace (snd (fetch r env s)) =
      trace s ++ Service (callOf r)
        :: match providerRequest r env with
           | Some request => [HttpGet request]
           | None => []
           end ++ errors ∧
    (length errors ≤ 1)%nat ∧
    Forall (λ e, isLogError e = true) errors ∧
    (∀ body s1, fetch r env s = (Ok body, s1) → errors = []).
Proof.
  destruct r; simpl; run;
    cbv [WeatherService.getCurrentWeather
         WeatherService.getCurrentWeatherByCoords
         WeatherService.getForecast WeatherService.getForecastByCoords
         WeatherService.axios_get httpRequest];
    run; simpl.
  1, 2:
    destruct (weatherApi env _) as [data|status]; simpl;
    [ match goal with
      | |- context [WeatherService.transformWeatherData ?d ?e0 ?s0] =>
          pose proof (transformWeatherData_trace d e0 s0) as Ht;
          destruct (WeatherService.transformWeatherData d e0 s0)
            as [[w|e] s1]; simpl in Ht
      end
    | ].
  all: try (destruct (forecastApi env _) as [data|status]; simpl;
    [ match goal with
      | |- context [WeatherService.transformForecastData ?d ?e0 ?s0] =>
          pose proof (silent_transformForecastData d e0 s0) as Ht;
          destruct (WeatherService.transformForecastData d e0 s0)
            as [[w|e] s1]; simpl in Ht; subst s1
      end
    | ]).
  all: try (eexists []; simpl; rewrite ?Ht; close_trace).
  all: try (try destruct (WeatherService.isNotFound _);
            repeat case_bool_decide; eexists [_]; simpl; rewrite ?Ht;
            close_trace).
  - destruct (historicalLoop_run (now env) (Z.to_nat (dayCount days)) env []
                (record (Service (CallHistorical location (dayCount days))) s))
      as (history & Hrun & _).
    unfold WeatherService.getHistoricalWeather. run. simpl in *.
    rewrite Hrun. simpl. exists []. split_and!; [done|simpl; lia|done|done].
  - rewrite getWeatherAlerts_run. simpl. exists [].
    split_and!; [done|simpl; lia|done|done].
Qed.

Lemma fetch_errors (r : Request) env s :
  ∃ errors,
    trace (snd (fetch r env s)) =
      trace s ++ Service (callOf r)
        :: match providerRequest r env with
           | Some request => [HttpGet request]
           | None => []
           end ++ errors ∧
    (errors = [] ∨ ∃ line e, errors = [LogError line e]) ∧
    (∀ body s1, fetch r env s = (Ok body, s1) → errors = []).
Proof.
  destruct (fetch_trace r env s) as (errors & Htr & Hlen & Hall & Hok).
  exists errors. split; [done|]. split; [|done].
  destruct errors as [|ev [|ev' rest]]; [by left| |simpl in Hlen; lia].
  right. apply Forall_cons_1 in Hall as [Hev _]. destruct ev; try done. eauto.
Qed.

(** ** Every run of a cached handler *)

Lemma serve_cases (r : Request) (key : string) env s :
  cacheKey r = Some key →
  serve r env s =
    if cacheReadFault env then
      (Throw (ApiError 500 (failure r)),
       record (LogError (context r) CacheError) (record (CacheGet key) s))
    else
      match CacheService.lookup (store s) (now env) key with
      | Some hit => (Ok hit, record (CacheGet key) s)
      | None =>
          match fetch r env (record (CacheGet key) s) with
          | (Throw e, s1) =>
              (Throw (ApiError 500 (failure r)),
               record (LogError (context r) e) s1)
          | (Ok body, s1) =>
              if cacheWriteFault env then
                (Throw (ApiError 500 (failure r)),
                 record (LogError (context r) CacheError)
                   (record (CacheSet key body (cacheTtl r)) s1))
              else
                (Ok body,
                 {| store := <[key := {| payload := body;
                                         insertedAt := now env;
                                         ttl := cacheTtl r |}]> (store s1);
                    drawn := drawn s1;
                    trace := trace s1 ++ [CacheSet key body (cacheTtl r)] |})
          end
      end.
Proof.
  intros Hk. rewrite (serve_cacheAside r key env s Hk).
  destruct (cacheReadFault env) eqn:Hf.
  { by rewrite cacheAside_read_fault. }
  destruct (CacheService.lookup (store s) (now env) key) as [hit|] eqn:Hl.
  { by rewrite (cacheAside_hit _ _ _ _ _ _ _ hit). }
  destruct (fetch r env (record (CacheGet key) s)) as [[body|e] s1] eqn:Hs.
  - by rewrite (cacheAside_source_returns _ _ _ _ _ _ _ body s1).
  - by rewrite (cacheAside_source_throws _ _ _ _ _ _ _ e s1).
Qed.

Lemma serve_alerts_run (location : string) env s :
  serve (GetAlerts location) env s =
    (Ok (PAlerts
           (if Qlt_le_dec (8 # 10) (unitInterval (random env (drawn s)))
            then [WeatherService.heatWave location (now env) (now env)]
            else [])),
     {| store := store s; drawn := S (drawn s);
        trace := trace s ++ [Service (CallAlerts location)] |}).
Proof.
  rewrite serve_alerts. simpl. run. by rewrite getWeatherAlerts_run.
Qed.

(** ** Failures of a handler *)

(** X1. Whatever goes wrong in a handler (the cache, the provider, the
    reply), the error it throws is [ApiError] with status 500 and the
    generic message of that handler, so the 404 of the weather service
    never reaches the caller; and a request that fails leaves the cache
    store as it was. *)
Theorem handler_failures_are_500
        (r : Request) (env : Env) (s s' : State) (e : JsError) :
  serve r env s = (Throw e, s') →
  e = ApiError 500 (failure r) ∧ store s' = store s.
Proof.
  destruct (cacheKey r) as [key|] eqn:Hk.
  - rewrite (serve_cases r key env s Hk).
    destruct (cacheReadFault env); [by intros [= <- <-]|].
    destruct (CacheService.lookup _ _ _); [congruence|].
    destruct (cacheFree_fetch r env (record (CacheGet key) s)) as (Hst & _).
    destruct (fetch r env _) as [[body|e0] s1]; simpl in Hst;
      [destruct (cacheWriteFault env)|]; by intros [= <- <-].
  - destruct r; try discriminate. by rewrite serve_alerts_run.
Qed.

Lemma handler_failures_are_500_witness :
  ApiError 500 "Failed to fetch weather data"
    = ApiError 500 (failure (GetCurrent "Atlantis")) ∧
  store (snd (serve (GetCurrent "Atlantis") Sample.env Sample.warm))
    = store Sample.warm.
Proof.
  apply (handler_failures_are_500 (GetCurrent "Atlantis") Sample.env
           Sample.warm
           (snd (serve (GetCurrent "Atlantis") Sample.env Sample.warm))).
  vm_compute. reflexivity.
Defined.

(** X2. The two by-coordinates methods of the weather service report
    every failure as [ApiError(500, "Weather service unavailable")]: any
    rejection of the provider, a 404 included, and any reply on which the
    transformer throws. *)
Theorem coords_failures_are_unavailable
        (lat lon : Js.Number) (env : Env) (s : State) :
  fst (WeatherService.getCurrentWeatherByCoords lat lon env s) =
    match weatherApi env (httpRequest "/weather" (ByCoords lat lon) env) with
    | Rejected _ => Throw (ApiError 500 "Weather service unavailable")
    | Resolved data =>
        if complete data then
          fst (WeatherService.transformWeatherData data env
                 (afterReply (CallCurrentByCoords lat lon)
                    (httpRequest "/weather" (ByCoords lat lon) env) s))
        else Throw (ApiError 500 "Weather service unavailable")
    end ∧
  fst (WeatherService.getForecastByCoords lat lon env s) =
    match forecastApi env (httpRequest "/forecast" (ByCoords lat lon) env) with
    | Rejected _ => Throw (ApiError 500 "Weather service unavailable")
    | Resolved data =>
        match fst (WeatherService.transformForecastData data env
                     (afterReply (CallForecastByCoords lat lon)
                        (httpRequest "/forecast" (ByCoords lat lon) env) s))
        with
        | Ok forecast => Ok forecast
        | Throw _ => Throw (ApiError 500 "Weather service unavailable")
        end
    end ∧
  (∀ e,
     fst (WeatherService.getCurrentWeatherByCoords lat lon env s) = Throw e ∨
     fst (WeatherService.getForecastByCoords lat lon env s) = Throw e →
     e = ApiError 500 "Weather service unavailable").
Proof.
  assert (fst (WeatherService.getCurrentWeatherByCoords lat lon env s) =
    match weatherApi env (httpRequest "/weather" (ByCoords lat lon) env) with
    | Rejected _ => Throw (ApiError 500 "Weather service unavailable")
    | Resolved data =>
        if complete data then
          fst (WeatherService.transformWeatherData data env
                 (afterReply (CallCurrentByCoords lat lon)
                    (httpRequest "/weather" (ByCoords lat lon) env) s))
        else Throw (ApiError 500 "Weather service unavailable")
    end) as H1.
  { unfold WeatherService.getCurrentWeatherByCoords,
      WeatherService.axios_get, afterReply, httpRequest.
    run. simpl.
    destruct (weatherApi env _) as [data|status]; simpl; [|done].
    match goal with
    | |- context [WeatherService.transformWeatherData data env ?s0] =>
        pose proof (transformWeatherData_complete data env s0) as H
    end.
    destruct (complete data).
    - by destruct H as (w & -> & _).
    - by destruct H as (s' & ->). }
  assert (fst (WeatherService.getForecastByCoords lat lon env s) =
    match forecastApi env (httpRequest "/forecast" (ByCoords lat lon) env) with
    | Rejected _ => Throw (ApiError 500 "Weather service unavailable")
    | Resolved data =>
        match fst (WeatherService.transformForecastData data env
                     (afterReply (CallForecastByCoords lat lon)
                        (httpRequest "/forecast" (ByCoords lat lon) env) s))
        with
        | Ok forecast => Ok forecast
        | Throw _ => Throw (ApiError 500 "Weather service unavailable")
        end
    end) as H2.
  { unfold WeatherService.getForecastByCoords,
      WeatherService.axios_get, afterReply, httpRequest.
    run. simpl.
    destruct (forecastApi env _) as [data|status]; simpl; [|done].
    by destruct (WeatherService.transformForecastData data env _)
      as [[l|e] s1]. }
  split; [exact H1|]. split; [exact H2|].
  intros e [He|He].
  - rewrite H1 in He. destruct (weatherApi env _) as [data|status];
      [|congruence].
    pose proof (transformWeatherData_complete data env
                  (afterReply (CallCurrentByCoords lat lon)
                     (httpRequest "/weather" (ByCoords lat lon) env) s)) as H.
    destruct (complete data); [|congruence].
    destruct H as (w & Hw & _). rewrite Hw in He. discriminate.
  - rewrite H2 in He. destruct (forecastApi env _) as [data|status];
      [|congruence].
    destruct (WeatherService.transformForecastData data env _)
      as [[l|e0] s1]; simpl in He; congruence.
Qed.

(** ** No retries *)

Ltac count :=
  unfold occurrences;
  cbn [List.filter isCacheGet isService isHttpGet isCacheSet length app];
  lia.

(** X3. A handler never retries and never fans out: whatever happens, one
    request reads the cache at most once, calls the weather service at
    most once, sends at most one request to the provider and writes the
    cache at most once.  Each of these events is the expected one: the
    cache accesses use the key of the request (and its TTL), the service
    call is the method of the request, and the provider request is the one
    for its place, with the configured API key, metric units and a timeout
    of 10 seconds; historical and alerts requests send none. *)
Theorem one_call_per_request (r : Request) (env : Env) (s : State) :
  ∃ events,
    trace (snd (serve r env s)) = trace s ++ events ∧
    (occurrences isCacheGet events ≤ 1)%nat ∧
    (occurrences isService events ≤ 1)%nat ∧
    (occurrences isHttpGet events ≤ 1)%nat ∧
    (occurrences isCacheSet events ≤ 1)%nat ∧
    Forall (expected r env) events ∧
    (∀ request,
       providerRequest r env = Some request →
       appid request = apiKey env ∧ units request = "metric" ∧
       timeout request = 10000 ∧
       url request =
         WeatherService.baseUrl +:+
           match requestKind r with
           | Current => "/weather"
           | _ => "/forecast"
           end) ∧
    (requestKind r = Historical ∨ requestKind r = Alerts →
     occurrences isHttpGet events = 0%nat).
Proof.
  assert (∀ request,
       providerRequest r env = Some request →
       appid request = apiKey env ∧ units request = "metric" ∧
       timeout request = 10000 ∧
       url request =
         WeatherService.baseUrl +:+
           match requestKind r with
           | Current => "/weather"
           | _ => "/forecast"
           end) as Hreq.
  { intros request. destruct r; simpl; intros [= <-]; done. }
  assert (requestKind r = Historical ∨ requestKind r = Alerts →
          providerRequest r env = None) as Hnone.
  { destruct r; simpl; intros [|]; done. }
  destruct (cacheKey r) as [key|] eqn:Hk.
  - rewrite (serve_cases r key env s Hk).
    destruct (cacheReadFault env).
    { exists [CacheGet key; LogError (context r) CacheError]. simpl.
      rewrite <- app_assoc.
      split_and!; try done; try count. by repeat constructor. }
    destruct (CacheService.lookup _ _ _) as [hit|].
    { exists [CacheGet key].
      split_and!; try done; try count. by repeat constructor. }
    destruct (fetch_errors r env (record (CacheGet key) s))
      as (errors & Htr & Herr & _).
    set (called := CacheGet key :: Service (callOf r)
                     :: match providerRequest r env with
                        | Some request => [HttpGet request]
                        | None => []
                        end ++ errors) in *.
    assert (Forall (expected r env) called) as Hexp.
    { constructor; [done|]. constructor; [done|].
      apply Forall_app. split.
      - destruct (providerRequest r env) eqn:Hp; [|constructor].
        constructor; [exact Hp|constructor].
      - destruct Herr as [->|(line & e & ->)]; by repeat constructor. }
    assert (occurrences isCacheGet called = 1 ∧
            occurrences isService called = 1 ∧
            occurrences isHttpGet called ≤ 1 ∧
            occurrences isCacheSet called = 0 ∧
            (providerRequest r env = None →
             occurrences isHttpGet called = 0))%nat as (Hg & Hs & Hh & Hw & Hn).
    { subst called. destruct (providerRequest r env);
        destruct Herr as [->|(line & e & ->)];
        unfold occurrences;
        cbn [List.filter isCacheGet isService isHttpGet isCacheSet length app];
        split_and!; (lia || done). }
    assert (∀ tail,
              (occurrences isCacheGet tail = 0)%nat →
              (occurrences isService tail = 0)%nat →
              (occurrences isHttpGet tail = 0)%nat →
              (occurrences isCacheSet tail ≤ 1)%nat →
              Forall (expected r env) tail →
              ∃ events,
                (trace s ++ [CacheGet key]) ++ tl called ++ tail
                  = trace s ++ events ∧
                (occurrences isCacheGet events ≤ 1)%nat ∧
                (occurrences isService events ≤ 1)%nat ∧
                (occurrences isHttpGet events ≤ 1)%nat ∧
                (occurrences isCacheSet events ≤ 1)%nat ∧
                Forall (expected r env) events ∧
                (requestKind r = Historical ∨ requestKind r = Alerts →
                 occurrences isHttpGet events = 0%nat)) as Hall.
    { intros tail Tg Ts Th Tw Texp. exists (called ++ tail).
      split; [by rewrite <- app_assoc|].
      unfold occurrences in *. rewrite !List.filter_app, !length_app.
      split_and!; try lia; [by apply Forall_app|].
      intros Hkind. rewrite (Hn (Hnone Hkind)). lia. }
    simpl in Htr. fold (tl called) in Htr.
    destruct (fetch r env _) as [[body|e] s1]; simpl in Htr;
      [destruct (cacheWriteFault env)|]; cbn [snd record trace].
    1: pose (tail := [CacheSet key body (cacheTtl r);
                      LogError (context r) CacheError]).
    2: pose (tail := [CacheSet key body (cacheTtl r)]).
    3: pose (tail := [LogError (context r) e]).
    all: destruct (Hall tail)
           as (events & Hev & H1 & H2 & H3 & H4 & H5 & H6);
         [ subst tail; count | subst tail; count | subst tail; count
         | subst tail; count | subst tail; by repeat constructor | ];
         exists events; split;
         [ rewrite <- Hev, Htr; subst called tail; simpl;
           rewrite <- ?app_assoc; simpl; rewrite <- ?app_assoc; reflexivity
         | split_and!; done ].
  - destruct r; try discriminate. rewrite serve_alerts_run. simpl.
    exists [Service (CallAlerts location)].
    split_and!; try done; try count. by repeat constructor.
Qed.

(** ** Keys and kinds *)

Lemma fetch_kind (r : Request) env s body s1 :
  fetch r env s = (Ok body, s1) → kindOf body = requestKind r.
Proof.
  destruct r; simpl; run;
    match goal with
    | |- context [?svc env s] =>
        match type of (svc env s) with
        | (Result _ * State)%type => destruct (svc env s) as [[a|e] s2]
        end
    end; by intros [= <- <-].
Qed.

Lemma cacheKey_separates (r1 r2 : Request) (key : string) :
  cacheKey r1 = Some key → cacheKey r2 = Some key →
  requestKind r1 = requestKind r2 ∧
  (requestKind r1 = Current → byCoordinates r1 = byCoordinates r2).
Proof.
  destruct r1, r2; cbn [cacheKey]; intros [= <-] [= H]; try done;
    simpl in H; discriminate.
Qed.

(** X4. Requests of different kinds never share a cache entry, and a
    current-weather request by name never shares one with a
    current-weather request by coordinates: two requests with the same
    key have the same kind and, for current weather, the same form. *)
Theorem keys_separate_kinds (r1 r2 : Request) (key : string) :
  cacheKey r1 = Some key →
  cacheKey r2 = Some key →
  requestKind r1 = requestKind r2 ∧
  (requestKind r1 = Current → byCoordinates r1 = byCoordinates r2).
Proof. apply cacheKey_separates. Qed.

Lemma keys_separate_kinds_witness :
  requestKind (GetCurrentCoords "40.0" "-74")
    = requestKind (GetCurrentCoords "40" "-74.00") ∧
  (requestKind (GetCurrentCoords "40.0" "-74") = Current →
   byCoordinates (GetCurrentCoords "40.0" "-74")
     = byCoordinates (GetCurrentCoords "40" "-74.00")).
Proof.
  apply (keys_separate_kinds (GetCurrentCoords "40.0" "-74")
           (GetCurrentCoords "40" "-74.00") "weather:coords:40:-74");
    reflexivity.
Defined.

(** ** Writing, then reading *)

Lemma stored_then_served (r1 r2 : Request) (key : string) (body : Payload)
      (env1 env2 : Env) (s s1 : State) :
  cacheKey r1 = Some key →
  cacheKey r2 = Some key →
  cacheReadFault env1 = false →
  cacheWriteFault env1 = false →
  CacheService.lookup (store s) (now env1) key = None →
  fetch r1 env1 (record (CacheGet key) s) = (Ok body, s1) →
  cacheReadFault env2 = false →
  (now env2 < now env1 + 1000 * cacheTtl r1 →
   serve r2 env2 (snd (serve r1 env1 s))
     = (Ok body, record (CacheGet key) (snd (serve r1 env1 s)))) ∧
  (now env1 + 1000 * cacheTtl r1 ≤ now env2 →
   ∃ events,
     trace (snd (serve r2 env2 (snd (serve r1 env1 s))))
       = trace (snd (serve r1 env1 s))
           ++ CacheGet key :: Service (callOf r2) :: events).
Proof.
  intros Hk1 Hk2 Hf Hw Hl Hs Hf2.
  rewrite (serve_cases r1 key env1 s Hk1), Hf, Hl, Hs, Hw. simpl.
  set (s2 := {| store := _; drawn := _; trace := _ |}).
  rewrite (serve_cases r2 key env2 s2 Hk2), Hf2.
  assert (store s2 !! key = Some {| payload := body; insertedAt := now env1;
                                    ttl := cacheTtl r1 |}) as Hentry
    by apply lookup_insert_eq.
  assert (trace s2 = trace s1 ++ [CacheSet key body (cacheTtl r1)]) as Htrace
    by done.
  clearbody s2. rewrite <- Htrace. split; intros Hnow.
  - assert (CacheService.lookup (store s2) (now env2) key = Some body) as ->
      by (apply lookup_Some; eauto).
    done.
  - assert (CacheService.lookup (store s2) (now env2) key = None) as ->
      by (apply lookup_None; right; eauto).
    destruct (fetch_errors r2 env2 (record (CacheGet key) s2))
      as (errors & Htr & _).
    destruct (fetch r2 env2 _) as [[body2|e] s3]; simpl in Htr;
      [destruct (cacheWriteFault env2)|]; simpl; rewrite Htr; simpl;
      rewrite <- !app_assoc; simpl; eauto.
Qed.

(** X5. A request that missed the cache and was answered stores its
    answer, and the same request repeated while the entry is younger than
    its TTL is answered with that same body from the cache, with nothing
    done but the cache read; repeated once the TTL has elapsed, it misses
    and calls the weather service again. *)
Theorem repeat_within_ttl_is_a_hit
        (r : Request) (key : string) (body : Payload)
        (env1 env2 : Env) (s s1 : State) :
  cacheKey r = Some key →
  cacheReadFault env1 = false →
  cacheWriteFault env1 = false →
  CacheService.lookup (store s) (now env1) key = None →
  fetch r env1 (record (CacheGet key) s) = (Ok body, s1) →
  cacheReadFault env2 = false →
  (now env2 < now env1 + 1000 * cacheTtl r →
   serve r env2 (snd (serve r env1 s))
     = (Ok body, record (CacheGet key) (snd (serve r env1 s)))) ∧
  (now env1 + 1000 * cacheTtl r ≤ now env2 →
   ∃ events,
     trace (snd (serve r env2 (snd (serve r env1 s))))
       = trace (snd (serve r env1 s))
           ++ CacheGet key :: Service (callOf r) :: events).
Proof. intros Hk. by apply stored_then_served. Qed.

Lemma repeat_within_ttl_is_a_hit_witness :
  (now (Sample.at_ 1793549399999 Sample.env)
     < now Sample.env + 1000 * cacheTtl (GetCurrent "Lahore") →
   serve (GetCurrent "Lahore") (Sample.at_ 1793549399999 Sample.env)
         (snd (serve (GetCurrent "Lahore") Sample.env Sample.cold))
     = (Ok (PWeather Sample.reading),
        record (CacheGet "weather:current:Lahore")
          (snd (serve (GetCurrent "Lahore") Sample.env Sample.cold)))) ∧
  (now Sample.env + 1000 * cacheTtl (GetCurrent "Lahore")
     ≤ now (Sample.at_ 1793549399999 Sample.env) →
   ∃ events,
     trace (snd (serve (GetCurrent "Lahore")
                   (Sample.at_ 1793549399999 Sample.env)
                   (snd (serve (GetCurrent "Lahore") Sample.env Sample.cold))))
       = trace (snd (serve (GetCurrent "Lahore") Sample.env Sample.cold))
           ++ CacheGet "weather:current:Lahore"
              :: Service (callOf (GetCurrent "Lahore")) :: events).
Proof.
  apply (repeat_within_ttl_is_a_hit (GetCurrent "Lahore")
           "weather:current:Lahore" (PWeather Sample.reading)
           Sample.env (Sample.at_ 1793549399999 Sample.env) Sample.cold
           (snd (fetch (GetCurrent "Lahore") Sample.env
                   (record (CacheGet "weather:current:Lahore") Sample.cold))));
    vm_compute; reflexivity.
Defined.

(** X6. The forecast handlers do share entries: the key of a forecast by
    name for the location "coords:LAT:LON" is the key of the forecast by
    coordinates for LAT and LON, so after a forecast by coordinates was
    fetched and stored, a forecast by name for that location is answered,
    within the TTL, with the stored forecast of the coordinates and no
    call on the weather service. *)
Theorem forecast_keys_collide
        (lat lon : string) (key : string) (body : Payload)
        (env1 env2 : Env) (s s1 : State) :
  cacheKey (GetForecastCoords lat lon) = Some key →
  cacheReadFault env1 = false →
  cacheWriteFault env1 = false →
  CacheService.lookup (store s) (now env1) key = None →
  fetch (GetForecastCoords lat lon) env1 (record (CacheGet key) s)
    = (Ok body, s1) →
  cacheReadFault env2 = false →
  now env2 < now env1 + 1000 * 1800 →
  cacheKey (GetForecast ("coords:" +:+ Js.toString (Js.parseFloat lat)
                           +:+ ":" +:+ Js.toString (Js.parseFloat lon)))
    = Some key ∧
  serve (GetForecast ("coords:" +:+ Js.toString (Js.parseFloat lat)
                        +:+ ":" +:+ Js.toString (Js.parseFloat lon)))
        env2 (snd (serve (GetForecastCoords lat lon) env1 s))
    = (Ok body,
       record (CacheGet key) (snd (serve (GetForecastCoords lat lon) env1 s))).
Proof.
  intros Hk Hf Hw Hl Hs Hf2 Hnow.
  assert (cacheKey (GetForecast ("coords:" +:+ Js.toString (Js.parseFloat lat)
                           +:+ ":" +:+ Js.toString (Js.parseFloat lon)))
            = Some key) as Hk2.
  { rewrite <- Hk. reflexivity. }
  split; [exact Hk2|].
  by apply (stored_then_served (GetForecastCoords lat lon) _ key body
              env1 env2 s s1).
Qed.

Lemma forecast_keys_collide_witness :
  cacheKey (GetForecast ("coords:" +:+ Js.toString (Js.parseFloat "31.50")
                           +:+ ":" +:+ Js.toString (Js.parseFloat "74")))
    = Some "forecast:coords:31.5:74" ∧
  serve (GetForecast ("coords:" +:+ Js.toString (Js.parseFloat "31.50")
                        +:+ ":" +:+ Js.toString (Js.parseFloat "74")))
        Sample.env
        (snd (serve (GetForecastCoords "31.50" "74") Sample.env Sample.cold))
    = (Ok (PForecast []),
       record (CacheGet "forecast:coords:31.5:74")
         (snd (serve (GetForecastCoords "31.50" "74") Sample.env
                 Sample.cold))).
Proof.
  apply (forecast_keys_collide "31.50" "74" "forecast:coords:31.5:74"
           (PForecast []) Sample.env Sample.env Sample.cold
           (snd (fetch (GetForecastCoords "31.50" "74") Sample.env
                   (record (CacheGet "forecast:coords:31.5:74") Sample.cold))));
    vm_compute; reflexivity.
Defined.

(** ** What a request may change in the store *)

(** X7. The only change a request ever makes to the cache store is to
    write, under its own key, the body it returns, stamped with the
    current time and the TTL of its kind; otherwise the store is as it
    was.  So the entries under all other keys are never touched. *)
Theorem store_changes_at_own_key (r : Request) (env : Env) (s : State) :
  (store (snd (serve r env s)) = store s ∨
   ∃ key body,
     cacheKey r = Some key ∧
     fst (serve r env s) = Ok body ∧
     store (snd (serve r env s)) =
       <[key := {| payload := body; insertedAt := now env;
                   ttl := cacheTtl r |}]> (store s)) ∧
  (∀ other : string,
     cacheKey r ≠ Some other →
     store (snd (serve r env s)) !! other = store s !! other).
Proof.
  assert (store (snd (serve r env s)) = store s ∨
   ∃ key body,
     cacheKey r = Some key ∧
     fst (serve r env s) = Ok body ∧
     store (snd (serve r env s)) =
       <[key := {| payload := body; insertedAt := now env;
                   ttl := cacheTtl r |}]> (store s)) as H.
  { destruct (cacheKey r) as [key|] eqn:Hk.
    - rewrite (serve_cases r key env s Hk).
      destruct (cacheReadFault env); [by left|].
      destruct (CacheService.lookup _ _ _); [by left|].
      destruct (cacheFree_fetch r env (record (CacheGet key) s)) as (Hst & _).
      destruct (fetch r env _) as [[body|e] s1]; simpl in Hst; [|by left].
      destruct (cacheWriteFault env); [by left|].
      right. exists key, body. simpl. by rewrite Hst.
    - destruct r; try discriminate. rewrite serve_alerts_run. by left. }
  split; [exact H|]. intros other Hother.
  destruct H as [->|(key & body & Hk & _ & ->)]; [done|].
  apply lookup_insert_ne. congruence.
Qed.

Lemma consistent_empty : consistent ∅.
Proof. intros r key entry _ H. by rewrite lookup_empty in H. Qed.

(** X8. If every entry of the store holds a payload of the kind of the
    requests that can read it, as in an empty store, then a handler that
    responds does so with a payload of its own kind (current weather, a
    forecast, a history, alerts), whether it comes from the cache or from
    the weather service, and the store it leaves has the same property. *)
Theorem responses_match_kind
        (r : Request) (env : Env) (s s' : State) (body : Payload) :
  consistent (store s) →
  serve r env s = (Ok body, s') →
  kindOf body = requestKind r ∧ consistent (store s').
Proof.
  intros Hc. destruct (cacheKey r) as [key|] eqn:Hk.
  - rewrite (serve_cases r key env s Hk).
    destruct (cacheReadFault env); [done|].
    destruct (CacheService.lookup _ _ _) as [hit|] eqn:Hl.
    { intros [= <- <-]. split; [|done].
      apply lookup_Some in Hl as (entry & Hentry & _ & <-). by eapply Hc. }
    destruct (cacheFree_fetch r env (record (CacheGet key) s)) as (Hst & _).
    destruct (fetch r env _) as [[body'|e] s1] eqn:Hs; simpl in Hst; [|done].
    destruct (cacheWriteFault env); [done|].
    intros [= <- <-]. pose proof (fetch_kind _ _ _ _ _ Hs) as Hkind.
    split; [done|]. simpl. rewrite Hst.
    intros r2 key2 entry Hk2. destruct (decide (key = key2)) as [<-|Hne].
    + rewrite lookup_insert_eq. intros [= <-]. simpl.
      rewrite Hkind. by destruct (cacheKey_separates r r2 key Hk Hk2).
    + rewrite lookup_insert_ne by done. by apply Hc.
  - destruct r; try discriminate. rewrite serve_alerts_run.
    by intros [= <- <-].
Qed.

Lemma responses_match_kind_witness :
  kindOf (PWeather Sample.reading) = requestKind (GetCurrent "Lahore") ∧
  consistent (store (snd (serve (GetCurrent "Lahore") Sample.env Sample.cold))).
Proof.
  apply (responses_match_kind (GetCurrent "Lahore") Sample.env Sample.cold
           (snd (serve (GetCurrent "Lahore") Sample.env Sample.cold))
           (PWeather Sample.reading)).
  - apply consistent_empty.
  - vm_compute. reflexivity.
Defined.

(** ** The days of a historical request *)








Example isInt_samples :
  map (WeatherRoutes.isInt 1 30) ["1"; "30"; "+7"; "007"; "014"]
    = [true; true; true; true; true] ∧
  map (WeatherRoutes.isInt 1 30) [""; "0"; "31"; "-3"; "2.5"; "7 "; "abc"; "+"]
    = [false; false; false; false; false; false; false; false].
Proof. split; reflexivity. Qed.



(** X10. When the days parameter parses to a negative integer, the
    historical handler, on a cache miss with a working cache, calls the
    weather service with that negative count, gets the empty history
    without a single random draw, stores it for an hour under the key
    that ends in the negative count, and responds with it. *)
Theorem negative_days_give_empty_history
        (location : string) (queryDays : option string) (v : Z)
        (env : Env) (s : State) :
  Js.parseInt queryDays = Some v →
  v < 0 →
  cacheReadFault env = false →
  cacheWriteFault env = false →
  CacheService.lookup (store s) (now env)
    ("history:" +:+ location +:+ ":" +:+ pretty v) = None →
  serve (GetHistory location queryDays) env s =
    (Ok (PHistory []),
     {| store :=
          <["history:" +:+ location +:+ ":" +:+ pretty v :=
              {| payload := PHistory []; insertedAt := now env;
                 ttl := 3600 |}]> (store s);
        drawn := drawn s;
        trace :=
          trace s ++
            [CacheGet ("history:" +:+ location +:+ ":" +:+ pretty v);
             Service (CallHistorical location v);
             CacheSet ("history:" +:+ location +:+ ":" +:+ pretty v)
               (PHistory []) 3600] |}).
Proof.
  intros Hp Hv Hf Hw Hl.
  assert (dayCount queryDays = v) as Hd.
  { unfold dayCount. rewrite Hp. by destruct v. }
  rewrite (serve_cases (GetHistory location queryDays)
             ("history:" +:+ location +:+ ":" +:+ pretty v) env s)
    by (cbn [cacheKey]; by rewrite Hd).
  rewrite Hf, Hl. cbn [fetch cacheTtl]. rewrite Hd, Hw.
  unfold WeatherService.getHistoricalWeather. run.
  destruct v as [|p|p]; try lia. simpl.
  by rewrite <- !app_assoc.
Qed.

Lemma negative_days_give_empty_history_witness :
  serve (GetHistory "Lahore" (Some "-3")) Sample.env Sample.warm =
    (Ok (PHistory []),
     {| store :=
          <["history:" +:+ "Lahore" +:+ ":" +:+ pretty (-3) :=
              {| payload := PHistory []; insertedAt := now Sample.env;
                 ttl := 3600 |}]> (store Sample.warm);
        drawn := drawn Sample.warm;
        trace :=
          trace Sample.warm ++
            [CacheGet ("history:" +:+ "Lahore" +:+ ":" +:+ pretty (-3));
             Service (CallHistorical "Lahore" (-3));
             CacheSet ("history:" +:+ "Lahore" +:+ ":" +:+ pretty (-3))
               (PHistory []) 3600] |}).
Proof.
  apply (negative_days_give_empty_history "Lahore" (Some "-3") (-3)
           Sample.env Sample.warm);
    (reflexivity || lia).
Defined.

(** ** The forecast transformer *)



(** ** Keys of historical requests *)

Lemma pretty_N_go_colon (x : N) :
  ∀ s, mentions ":" (pretty_N_go x s) = mentions ":" s.
Proof.
  induction (N.lt_wf_0 x) as [x _ IH]. intros s.
  destruct (decide (x = 0)%N) as [->|Hx]; [by rewrite pretty_N_go_0|].
  rewrite pretty_N_go_step by lia.
  rewrite IH by (apply N.div_lt; lia).
  cbn [mentions].
  assert (Ascii.eqb ":" (pretty_N_char (x `mod` 10)) = false) as ->; [|done].
  unfold pretty_N_char. by repeat case_match.
Qed.

Lemma mentions_app (c : ascii) (s1 s2 : string) :
  mentions c (s1 +:+ s2) = mentions c s1 || mentions c s2.
Proof.
  induction s1 as [|c' r IH]; simpl; [done|]. by rewrite IH, orb_assoc.
Qed.

Lemma pretty_N_colon (n : N) : mentions ":" (pretty n) = false.
Proof.
  unfold pretty, pretty_N. case_decide; [done|]. by rewrite pretty_N_go_colon.
Qed.

Lemma pretty_Z_colon (z : Z) : mentions ":" (pretty z) = false.
Proof.
  destruct z as [|p|p]; [done| |].
  - change (pretty (Z.pos p)) with (pretty (N.pos p)). apply pretty_N_colon.
  - change (pretty (Z.neg p)) with ("-" +:+ pretty (N.pos p)).
    by rewrite mentions_app, pretty_N_colon.
Qed.

Lemma split_at_last_colon (a1 : string) :
  ∀ (a2 b1 b2 : string),
    mentions ":" b1 = false → mentions ":" b2 = false →
    a1 +:+ String ":" b1 = a2 +:+ String ":" b2 →
    a1 = a2 ∧ b1 = b2.
Proof.
  assert (∀ r b, mentions ":" (r +:+ String ":" b) = true) as Hcolon.
  { intros r b. rewrite mentions_app. simpl. apply orb_true_r. }
  induction a1 as [|c r IH]; intros [|c' r'] b1 b2 H1 H2; simpl.
  - by intros [= ->].
  - intros [= <- ->]. by rewrite Hcolon in H1.
  - intros [= -> <-]. by rewrite Hcolon in H2.
  - intros [= <- H]. by destruct (IH r' b1 b2 H1 H2 H) as [-> ->].
Qed.

(** X12. Two historical requests share a cache key only when they have
    the same location and the same day count, even when a location has
    colons in it; and two current-weather (or forecast) requests by name
    share a key only when they name the same location. *)
Theorem history_keys_are_exact
        (location1 location2 : string) (days1 days2 : option string) :
  cacheKey (GetHistory location1 days1)
    = cacheKey (GetHistory location2 days2) →
  location1 = location2 ∧ dayCount days1 = dayCount days2 ∧
  (∀ a b, cacheKey (GetCurrent a) = cacheKey (GetCurrent b) → a = b) ∧
  (∀ a b, cacheKey (GetForecast a) = cacheKey (GetForecast b) → a = b).
Proof.
  cbn [cacheKey]. intros [= H]. apply (inj (String.app _)) in H.
  apply split_at_last_colon in H as [-> H]; try apply pretty_Z_colon.
  apply (inj pretty) in H. split; [done|]. split; [done|].
  split; intros a b [= Hab]; by apply (inj (String.app _)) in Hab.
Qed.

Lemma history_keys_are_exact_witness :
  "a:1" = "a:1" ∧ dayCount (Some "07") = dayCount None ∧
  (∀ a b, cacheKey (GetCurrent a) = cacheKey (GetCurrent b) → a = b) ∧
  (∀ a b, cacheKey (GetForecast a) = cacheKey (GetForecast b) → a = b).
Proof.
  apply (history_keys_are_exact "a:1" "a:1" (Some "07") None). reflexivity.
Defined.
